(** * fink-broker: HBase catalog and schema-row utilities

    A shallow embedding of [fink_broker/hbaseUtils.py] and the properties of
    its column classifier, row-key builder, catalog compiler and schema-row
    synthesizer.

    Python values are modelled as follows.
    - [str] is [string]; one [ascii] stands for one character (code points
      below 256), so [String.length] is Python's [len].
    - a [dict] used as a map from names to families is a [gmap string string];
      Python compares dicts regardless of insertion order, as [=] on [gmap]
      does.
    - a raised exception is the [Raise] branch of [result]. *)

From Stdlib Require Import Ascii.
From stdpp Require Import base option list strings gmap fin_maps.

(** ** Exceptions *)

Inductive exn : Type :=
| KeyError (key : string)
| IndexError
| AnalysisException.

Inductive result (A : Type) : Type :=
| Ok (a : A)
| Raise (e : exn).
Arguments Ok {A} a.
Arguments Raise {A} e.

#[global] Instance result_ret : MRet result := fun _ a => Ok a.
#[global] Instance result_bind : MBind result :=
  fun _ _ f m => match m with Ok a => f a | Raise e => Raise e end.

Definition is_ok {A} (r : result A) : bool :=
  match r with Ok _ => true | Raise _ => false end.

(** ** Strings *)

Module Str.

(** The line feed of a triple-quoted literal. *)
Definition nl : string := String (ascii_of_nat 10) EmptyString.

(** The two quote characters of the final [catalog.replace]: the single
    quote (code 39) is replaced by the double quote (code 34). *)
Definition squote : ascii := ascii_of_nat 39.
Definition dquote : ascii := ascii_of_nat 34.

(** [s.replace(old, new)] for one-character [old] and [new]. *)
Fixpoint replace (old new : ascii) (s : string) : string :=
  match s with
  | EmptyString => EmptyString
  | String c s' =>
      String (if Ascii.eqb c old then new else c) (replace old new s')
  end.

(** [sep.join(l)]. *)
Fixpoint join (sep : string) (l : list string) : string :=
  match l with
  | [] => ""
  | [x] => x
  | x :: l' => x +:+ sep +:+ join sep l'
  end.

(** [''.join(l)], the concatenation of a list of pieces. *)
Definition cat (l : list string) : string := fold_right String.append "" l.

(** [sub in s]. *)
Fixpoint contains (sub s : string) : bool :=
  String.prefix sub s ||
  match s with
  | EmptyString => false
  | String _ s' => contains sub s'
  end.

(** [s[:n]]. *)
Definition take (n : nat) (s : string) : string := String.substring 0 n s.

(** Removal of the trailing NUL characters of [s]. *)
Fixpoint rstrip_nul (s : string) : string :=
  match s with
  | EmptyString => EmptyString
  | String c s' =>
      match rstrip_nul s' with
      | EmptyString => if Ascii.eqb c zero then EmptyString else String c EmptyString
      | t => String c t
      end
  end.

(** A string without NUL. *)
Fixpoint nul_free (s : string) : bool :=
  match s with
  | EmptyString => true
  | String c s' => negb (Ascii.eqb c zero) && nul_free s'
  end.

End Str.

(** ** Spark schemas

    [DataType.jsonValue()] is a [str] for an atomic type (its type name) and a
    [dict] for an array, map, struct or user-defined type. *)

#[local] Set Warnings "-register-all".

Inductive json : Type :=
| JNull
| JBool (b : bool)
| JInt (z : Z)
| JStr (s : string)
| JList (l : list json)
| JDict (kv : list (string * json)).

Inductive jtype : Type :=
| TStr (s : string)
| TDict (d : json).

Record StructField : Type := mkField {
  name : string;
  dataType : jtype;
  nullable : bool
}.

(** A [StructType] is the ordered list of its fields. *)
Abbreviation StructType := (list StructField).

(** One element of [schema.jsonValue()["fields"]]: a freshly built dict with
    the keys [name], [type], [nullable] (and [metadata], which the module
    never reads). *)
Record column : Type := mkColumn {
  c_name : string;
  c_type : jtype;
  c_nullable : bool
}.

Definition set_type (c : column) (t : jtype) : column :=
  {| c_name := c_name c; c_type := t; c_nullable := c_nullable c |}.

Definition field_jsonValue (f : StructField) : column :=
  {| c_name := name f; c_type := dataType f; c_nullable := nullable f |}.

Definition jsonValue_fields (schema : StructType) : list column :=
  map field_jsonValue schema.

Definition is_dict (t : jtype) : bool :=
  match t with TDict _ => true | TStr _ => false end.

Definition jtype_eq_str (t : jtype) (s : string) : bool :=
  match t with TStr s' => String.eqb s' s | TDict _ => false end.

(** ** The catalog compiler *)

Section Catalog.

(** Python's [str()] of a [dict], as [format] would print one. The
    compiler never prints one (a dict-valued type is overwritten before
    it is formatted), the schema-row synthesizer does. *)
Variable py_str : json -> string.

(** [format] of the value held under the key [type]. *)
Definition format_type (t : jtype) : string :=
  match t with
  | TStr s => s
  | TDict d => py_str d
  end.

(** The opening template, after [format(catalogname, rowkeyname)]. *)
Definition catalog_header (catalogname rowkeyname : string) : string :=
  Str.cat
    [ Str.nl;
      "    {"; Str.nl;
      "        'table': {"; Str.nl;
      "            'namespace': 'default',"; Str.nl;
      "            'name': '"; catalogname; "'"; Str.nl;
      "        },"; Str.nl;
      "        'rowkey': '"; rowkeyname; "',"; Str.nl;
      "        'columns': {"; Str.nl;
      "    " ].

(** The row-key template, after [format(name, name, type, sep)]. *)
Definition format_rowkey (n col ty sep : string) : string :=
  Str.cat
    [ Str.nl;
      "            '"; n; "': {'cf': 'rowkey', 'col': '"; col;
      "', 'type': '"; ty; "'}"; sep; Str.nl;
      "            " ].

(** The column template, after [format(name, cf[name], name, type, sep)]. *)
Definition format_column (n fam col ty sep : string) : string :=
  Str.cat
    [ Str.nl;
      "            '"; n; "': {'cf': '"; fam; "', 'col': '"; col;
      "', 'type': '"; ty; "'}"; sep; Str.nl;
      "            " ].

Definition annotation_text : string :=
  "'annotation': {'cf': 'a', 'col': '', 'type': 'string'}".

Definition catalog_footer : string :=
  Str.cat [ Str.nl; "        }"; Str.nl; "    }"; Str.nl; "    " ].

(** The two in-place assignments to [column["type"]]. *)
Definition normalize_column (c : column) : column :=
  let c1 := if is_dict (c_type c) then set_type c (TStr "string") else c in
  if jtype_eq_str (c_type c1) "timestamp"
  then set_type c1 (TStr "string") else c1.

(** The [if column["name"] == rowkeyname ... else ...] statement: the text
    appended to [catalog], or the [KeyError] of [cf[column["name"]]]. *)
Definition emit_column (rowkeyname : string) (cf : gmap string string)
    (sep catalog : string) (c : column) : result string :=
  if String.eqb (c_name c) rowkeyname then
    Ok (catalog +:+
        format_rowkey (c_name c) (c_name c) (format_type (c_type c)) sep)
  else
    match cf !! c_name c with
    | Some fam =>
        Ok (catalog +:+
            format_column (c_name c) fam (c_name c)
                          (format_type (c_type c)) sep)
    | None => Raise (KeyError (c_name c))
    end.

(** [for column in schema_columns]: the state is the accumulated text and
    the list of dicts, which the body mutates. *)
Fixpoint catalog_loop (rowkeyname : string) (cf : gmap string string)
    (sep : string) (schema_columns : list column) (catalog : string)
    : result (string * list column) :=
  match schema_columns with
  | [] => Ok (catalog, [])
  | c :: rest =>
      let c' := normalize_column c in
      catalog' ← emit_column rowkeyname cf sep catalog c';
      '(final, rest') ← catalog_loop rowkeyname cf sep rest catalog';
      Ok (final, c' :: rest')
  end.

(** The body of the function from the assignment of [catalog] on, run on
    a given list of column dicts; it returns the catalog and the dicts as
    the loop left them. *)
Definition compile_columns (schema_columns : list column)
    (catalogname rowkeyname : string) (cf : gmap string string)
    : result (string * list column) :=
  let catalog := catalog_header catalogname rowkeyname in
  let sep := "," in
  '(catalog, cols) ← catalog_loop rowkeyname cf sep schema_columns catalog;
  let catalog := catalog +:+ annotation_text in
  let catalog := catalog +:+ catalog_footer in
  Ok (Str.replace Str.squote Str.dquote catalog, cols).

Definition construct_hbase_catalog_from_flatten_schema (schema : StructType)
    (catalogname rowkeyname : string) (cf : gmap string string)
    : result string :=
  let schema_columns := jsonValue_fields schema in
  '(catalog, _) ← compile_columns schema_columns catalogname rowkeyname cf;
  Ok catalog.

(** Two calls in a row on the same arguments. *)
Definition compile_twice (schema : StructType)
    (catalogname rowkeyname : string) (cf : gmap string string)
    : result (string * string) :=
  c1 ← construct_hbase_catalog_from_flatten_schema
         schema catalogname rowkeyname cf;
  c2 ← construct_hbase_catalog_from_flatten_schema
         schema catalogname rowkeyname cf;
  Ok (c1, c2).

(** *** The catalog as the specification describes it *)

(** A family map covers a schema when every field but the row key has a
    family. *)
Definition covers (cf : gmap string string) (rowkeyname : string)
    (schema : StructType) : Prop :=
  ∀ f, f ∈ schema → name f ≠ rowkeyname → is_Some (cf !! name f).

(** Type normalization in the specification's words: nested types and
    [timestamp] become [string], other type names are kept. *)
Definition normalized_type (t : jtype) : string :=
  match t with
  | TDict _ => "string"
  | TStr s => if String.eqb s "timestamp" then "string" else s
  end.

Record entry : Type := mkEntry {
  e_key : string;
  e_cf : string;
  e_col : string;
  e_type : string
}.

(** One entry: its key and its family, qualifier and type. *)
Definition entry_body (e : entry) : string :=
  Str.cat
    [ "'"; e_key e; "': {'cf': '"; e_cf e; "', 'col': '"; e_col e;
      "', 'type': '"; e_type e; "'}" ].

(** An entry of a schema field is laid out on a line of its own and
    followed by a comma. *)
Definition render_entry (e : entry) : string :=
  Str.cat
    [ Str.nl; "            "; entry_body e; ","; Str.nl; "            " ].

Definition annotation_entry : entry :=
  {| e_key := "annotation"; e_cf := "a"; e_col := ""; e_type := "string" |}.

(** The entry of a field: keyed and qualified by the field's name, typed
    by the normalized type, in the family [rowkey] for the row key and in
    the mapped family otherwise. *)
Definition entry_of (rowkeyname : string) (cf : gmap string string)
    (f : StructField) (e : entry) : Prop :=
  e_key e = name f ∧ e_col e = name f ∧
  e_type e = normalized_type (dataType f) ∧
  (if String.eqb (name f) rowkeyname then e_cf e = "rowkey"
   else cf !! name f = Some (e_cf e)).

(** The text of a catalog with the given entries, in order, followed by
    the annotation entry. *)
Definition render_catalog (catalogname rowkeyname : string)
    (entries : list entry) : string :=
  Str.replace Str.squote Str.dquote
    (catalog_header catalogname rowkeyname +:+
     Str.cat (map render_entry entries) +:+
     entry_body annotation_entry +:+ catalog_footer).

End Catalog.

(** ** Spark DataFrames

    A DataFrame is its schema and its records; a record holds one cell per
    field and a cell is a value or SQL [NULL]. What Spark decides is taken
    as a parameter: the values that are not strings and their cast to a
    string, the session's rule to match a column name, and the analysis of
    an argument of [select] (a name, a pattern such as [candidate.*] or a
    Column object) against a DataFrame. *)

Section Spark.

Variable datum : Type.
Variable cast_datum : datum -> string.
Variable resolver : string -> string -> bool.

Inductive value : Type :=
| VStr (s : string)
| VDatum (d : datum).

(** [CAST(v AS STRING)]. *)
Definition cast_string (v : value) : string :=
  match v with
  | VStr s => s
  | VDatum d => cast_datum d
  end.

(** [None] is [NULL]. *)
#[local] Abbreviation cell := (option value).

Record DataFrame : Type := mkDataFrame {
  schema : StructType;
  rows : list (list cell)
}.

(** [df.columns]. *)
Definition columns (df : DataFrame) : list string := map name (schema df).

(** A resolved expression: the field it yields and its value on a
    record. *)
Record outcol : Type := mkOutcol {
  o_field : StructField;
  o_eval : list cell -> cell
}.

(** *** [df.select] *)

Section Select.

Variable Col : Type.

(** The output columns of one argument of [select], or [None] when the
    analysis raises [AnalysisException]. *)
Variable analyze : DataFrame -> Col -> option (list outcol).

Fixpoint analyze_all (df : DataFrame) (cols : list Col)
    : result (list outcol) :=
  match cols with
  | [] => Ok []
  | c :: rest =>
      match analyze df c with
      | None => Raise AnalysisException
      | Some out =>
          outs ← analyze_all df rest;
          Ok (out ++ outs)
      end
  end.

Definition select (df : DataFrame) (cols : list Col) : result DataFrame :=
  outs ← analyze_all df cols;
  Ok {| schema := map o_field outs;
        rows := map (fun r => map (fun o => o_eval o r) outs) (rows df) |}.

(** *** [select_relevant_columns] *)

(** What [logger.info] receives: the list formatted into the message
    [Missing columns detected in the DataFrame: ...]. *)
Inductive log_record : Type :=
| info_missing_columns (missing_cols : list Col).

(** The [for col_ in cols] loop with its [try]: only
    [AnalysisException] is caught. *)
Fixpoint classify_columns (df : DataFrame) (cols cnames missing_cols : list Col)
    : result (list Col * list Col) :=
  match cols with
  | [] => Ok (cnames, missing_cols)
  | col_ :: rest =>
      match select df [col_] with
      | Ok _ => classify_columns df rest (cnames ++ [col_]) missing_cols
      | Raise AnalysisException =>
          classify_columns df rest cnames (missing_cols ++ [col_])
      | Raise e => Raise e
      end
  end.

(** [logger] is [true] when a logger is given; [to_create] is [Some l]
    when it is a list. The result is the DataFrame and the records
    logged. *)
Definition select_relevant_columns (df : DataFrame) (cols : list Col)
    (logger : bool) (to_create : option (list Col))
    : result (DataFrame * list log_record) :=
  '(cnames, missing_cols) ← classify_columns df cols [] [];
  let cnames :=
    match to_create with
    | Some extra => cnames ++ extra
    | None => cnames
    end in
  df' ← select df cnames;
  let log := if logger then [info_missing_columns missing_cols] else [] in
  Ok (df', log).

(** A desired column resolves when [df.select(col_)] does not raise. *)
Definition resolves (df : DataFrame) (c : Col) : bool :=
  is_ok (select df [c]).

(** *** [assign_column_family_names] *)

(** [{i: tag for i in names}]. *)
Definition dict_of (tag : string) (names : list string) : gmap string string :=
  fold_left (fun m i => <[i := tag]> m) names ∅.

(** [cf.update(other)]. *)
Definition update (cf other : gmap string string) : gmap string string :=
  other ∪ cf.

Definition assign_column_family_names (df : DataFrame)
    (cols_i cols_d cols_b : list Col) : result (gmap string string) :=
  df_i ← select df cols_i;
  let cf := dict_of "i" (columns df_i) in
  df_d ← select df cols_d;
  let cf := update cf (dict_of "d" (columns df_d)) in
  df_b ← select df cols_b;
  let cf := update cf (dict_of "b" (columns df_b)) in
  Ok cf.

(** Two calls in a row on the same arguments. *)
Definition assign_twice (df : DataFrame) (cols_i cols_d cols_b : list Col)
    : result (gmap string string * gmap string string) :=
  cf1 ← assign_column_family_names df cols_i cols_d cols_b;
  cf2 ← assign_column_family_names df cols_i cols_d cols_b;
  Ok (cf1, cf2).

End Select.

(** *** Column expressions and [df.withColumn]

    The row-key builder works on a flattened DataFrame: a name refers to
    a top-level column. *)

Inductive Column : Type :=
| col (n : string)
| astype_string (c : Column)
| concat_ws (sep : string) (cs : list Column).

(** A bound expression: its type, its nullability and its value on a
    record. *)
Record bound : Type := mkBound {
  b_type : jtype;
  b_nullable : bool;
  b_eval : list cell -> cell
}.

(** The positions and fields that a name matches. *)
Definition matching (df : DataFrame) (n : string) : list (nat * StructField) :=
  List.filter (fun p => resolver (name p.2) n) (imap pair (schema df)).

(** A name resolves when it matches one column; no match and an
    ambiguous match both raise [AnalysisException]. *)
Definition resolve (df : DataFrame) (n : string) : result (nat * StructField) :=
  match matching df n with
  | [p] => Ok p
  | _ => Raise AnalysisException
  end.

(** [concat_ws] joins the strings of the cells that are not [NULL]. *)
Definition eval_concat_ws (sep : string) (cells : list cell) : cell :=
  Some (VStr (Str.join sep (omap (fmap cast_string) cells))).

Fixpoint bind_column (df : DataFrame) (c : Column) : result bound :=
  match c with
  | col n =>
      p ← resolve df n;
      Ok {| b_type := dataType p.2;
            b_nullable := nullable p.2;
            b_eval := fun r => default None (r !! p.1) |}
  | astype_string c' =>
      b ← bind_column df c';
      Ok {| b_type := TStr "string";
            b_nullable := b_nullable b;
            b_eval := fun r => VStr <$> (cast_string <$> b_eval b r) |}
  | concat_ws sep cs =>
      bs ← (fix bind_all (cs : list Column) : result (list bound) :=
              match cs with
              | [] => Ok []
              | c' :: rest =>
                  b ← bind_column df c';
                  bs ← bind_all rest;
                  Ok (b :: bs)
              end) cs;
      Ok {| b_type := TStr "string";
            b_nullable := false;
            b_eval := fun r => eval_concat_ws sep (map (fun b => b_eval b r) bs) |}
  end.

(** Every column that [colName] matches is replaced, in place, by the
    new column under the name [colName]; when there is none the new
    column is appended. *)
Definition withColumn (df : DataFrame) (colName : string) (c : Column)
    : result DataFrame :=
  b ← bind_column df c;
  let fld := mkField colName (b_type b) (b_nullable b) in
  let hit := fun f : StructField => resolver (name f) colName in
  if existsb hit (schema df) then
    Ok {| schema := map (fun f => if hit f then fld else f) (schema df);
          rows := map (fun r =>
                    zip_with (fun f v => if hit f then b_eval b r else v)
                             (schema df) r) (rows df) |}
  else
    Ok {| schema := schema df ++ [fld];
          rows := map (fun r => r ++ [b_eval b r]) (rows df) |}.

(** *** [retrieve_row_key_cols] and [attach_rowkey] *)

Definition retrieve_row_key_cols : list string := ["objectId"; "jd"].

Definition attach_rowkey (df : DataFrame) (sep : string)
    : result (DataFrame * string) :=
  let row_key_cols := retrieve_row_key_cols in
  let row_key_name := Str.join "_" row_key_cols in
  let to_concat := map (fun i => astype_string (col i)) row_key_cols in
  df' ← withColumn df row_key_name (concat_ws sep to_concat);
  Ok (df', row_key_name).

(** The key of a record whose key columns are at the positions [i] and
    [j]: the string forms of the cells that are not [NULL], joined with
    [sep]. *)
Definition rowkey_value (sep : string) (i j : nat) (r : list cell)
    : cell :=
  Some (VStr (Str.join sep
                (omap (fmap cast_string)
                      [default None (r !! i); default None (r !! j)]))).

(** The field of the key column. *)
Definition rowkey_field : StructField :=
  mkField "objectId_jd" (TStr "string") false.

(** The DataFrame that [attach_rowkey] returns: the key column takes
    the place of every column that the key's name matches, or comes
    last when there is none. *)
Definition rowkey_hit (f : StructField) : bool :=
  resolver (name f) "objectId_jd".

Definition with_rowkey_schema (df : DataFrame) : StructType :=
  if existsb rowkey_hit (schema df)
  then map (fun f => if rowkey_hit f then rowkey_field else f) (schema df)
  else schema df ++ [rowkey_field].

Definition with_rowkey_row (df : DataFrame) (sep : string) (i j : nat)
    (r : list cell) : list cell :=
  if existsb rowkey_hit (schema df)
  then zip_with (fun f v => if rowkey_hit f then rowkey_value sep i j r else v)
                (schema df) r
  else r ++ [rowkey_value sep i j r].

Definition with_rowkey (df : DataFrame) (sep : string) (i j : nat)
    : DataFrame :=
  {| schema := with_rowkey_schema df;
     rows := map (with_rowkey_row df sep i j) (rows df) |}.

(** *** [construct_schema_row] *)

Variable py_str : json -> string.

(** An array of dtype [<U75] keeps the first 75 characters of what is
    stored in an element and pads with NUL; reading an element back
    ([tolist]) drops the trailing NULs. *)
Definition np_store (s : string) : string := Str.take 75 s.
Definition np_item (s : string) : string := Str.rstrip_nul s.

(** [==] between numpy strings: the padding does not count. *)
Definition np_eqb (a b : string) : bool :=
  String.eqb (Str.rstrip_nul a) (Str.rstrip_nul b).

(** [np.where(a == x)[0]]: the positions, in order, where [a] holds
    [x]. *)
Fixpoint np_where (x : string) (a : list string) (i : nat) : list nat :=
  match a with
  | [] => []
  | y :: a' => (if np_eqb y x then [i] else []) ++ np_where x a' (S i)
  end.

Definition construct_schema_row (df : DataFrame) (rowkeyname version : string)
    : result DataFrame :=
  let data :=
    map (fun c => np_store (format_type py_str (c_type (field_jsonValue c))))
        (schema df) in
  let names := map (fun c => np_item (c_name (field_jsonValue c))) (schema df) in
  let mask := map (Str.contains "cutout") names in
  let data :=
    zip_with (fun (m : bool) d => if m then np_store "fits/image" else d)
             mask data in
  match np_where rowkeyname (columns df) 0 with
  | [] => Raise IndexError
  | index :: _ =>
      let data := <[index := np_store version]> data in
      Ok {| schema := map (fun n => mkField n (TStr "string") true) (columns df);
            rows := [map (fun s => Some (VStr (np_item s))) data] |}
  end.

(** The value that the array holds for the field [f] at the position [k],
    before it is read back. *)
Definition schema_row_source (index : nat) (version : string) (k : nat)
    (f : StructField) : string :=
  if decide (k = index) then version
  else if Str.contains "cutout" (name f) then "fits/image"
  else format_type py_str (dataType f).

(** [index] is the first position of [cols] that holds [rowkeyname], as
    numpy compares strings. *)
Definition first_match (rowkeyname : string) (cols : list string) (index : nat)
    : Prop :=
  (∃ c, cols !! index = Some c ∧ np_eqb c rowkeyname = true) ∧
  ∀ k c, k < index → cols !! k = Some c → np_eqb c rowkeyname = false.

End Spark.

(** A cell of a DataFrame over the values [datum]. *)
Abbreviation cell datum := (option (value datum)).

Arguments VStr {datum} s.
Arguments VDatum {datum} d.
Arguments mkDataFrame {datum} schema rows.
Arguments schema {datum} d.
Arguments rows {datum} d.
Arguments columns {datum} df.
Arguments mkOutcol {datum} o_field o_eval.
Arguments o_field {datum} o.
Arguments o_eval {datum} o.
Arguments cast_string {datum} cast_datum v.
Arguments analyze_all {datum Col} analyze df cols.
Arguments select {datum Col} analyze df cols.
Arguments info_missing_columns {Col} missing_cols.
Arguments classify_columns {datum Col} analyze df cols cnames missing_cols.
Arguments select_relevant_columns {datum Col} analyze df cols logger to_create.
Arguments assign_column_family_names {datum Col} analyze df cols_i cols_d cols_b.
Arguments assign_twice {datum Col} analyze df cols_i cols_d cols_b.
Arguments mkBound {datum} b_type b_nullable b_eval.
Arguments b_type {datum} b.
Arguments b_nullable {datum} b.
Arguments b_eval {datum} b.
Arguments matching {datum} resolver df n.
Arguments resolve {datum} resolver df n.
Arguments eval_concat_ws {datum} cast_datum sep cells.
Arguments bind_column {datum} cast_datum resolver df c.
Arguments withColumn {datum} cast_datum resolver df colName c.
Arguments attach_rowkey {datum} cast_datum resolver df sep.
Arguments construct_schema_row {datum} py_str df rowkeyname version.
Arguments resolves {datum Col} analyze df c.
Arguments rowkey_value {datum} cast_datum sep i j r.
Arguments with_rowkey_schema {datum} resolver df.
Arguments with_rowkey_row {datum} cast_datum resolver df sep i j r.
Arguments with_rowkey {datum} cast_datum resolver df sep i j.

(** ** The store: [load_hbase_data], [write_catalog_on_disk], [push_to_hbase]

    The HBase connector and the file system are outside the module. A read
    of the connector is a parameter; a write of the connector and a write
    of a file are recorded, in the order in which the code asks for them,
    in a trace of events. *)

(** *** [json.dump] of a [str]

    With the default [ensure_ascii] a string is written between two double
    quotes; the backslash and the double quote are escaped with a
    backslash, backspace, form feed, line feed, carriage return and tab
    get their letter, and any other character outside the range from the
    space to the tilde is written as a four-digit hexadecimal escape. *)

Module Json.

Definition backslash : ascii := ascii_of_nat 92.

Definition hex_digit (n : nat) : ascii :=
  match String.get n "0123456789abcdef" with
  | Some c => c
  | None => "0"%char
  end.

(** [u] followed by four hexadecimal digits, for a code point below 256. *)
Definition u_escape (n : nat) : string :=
  String backslash
    (String "u" (String "0" (String "0"
       (String (hex_digit (n / 16)) (String (hex_digit (n mod 16)) ""))))).

Definition escape (c : ascii) : string :=
  let n := nat_of_ascii c in
  if Nat.eqb n 92 then String backslash (String backslash "")
  else if Nat.eqb n 34 then String backslash (String Str.dquote "")
  else if Nat.eqb n 8 then String backslash "b"
  else if Nat.eqb n 12 then String backslash "f"
  else if Nat.eqb n 10 then String backslash "n"
  else if Nat.eqb n 13 then String backslash "r"
  else if Nat.eqb n 9 then String backslash "t"
  else if Nat.leb 32 n && Nat.leb n 126 then String c ""
  else u_escape n.

Fixpoint escape_all (s : string) : string :=
  match s with
  | EmptyString => EmptyString
  | String c s' => escape c +:+ escape_all s'
  end.

(** The text that [json.dump(s, json_file)] writes for a [str]. *)
Definition dumps (s : string) : string :=
  String Str.dquote (escape_all s +:+ String Str.dquote "").

(** A character from the space to the tilde. *)
Definition printable (c : ascii) : bool :=
  Nat.leb 32 (nat_of_ascii c) && Nat.leb (nat_of_ascii c) 126.

Fixpoint all_printable (s : string) : bool :=
  match s with
  | EmptyString => true
  | String c s' => printable c && all_printable s'
  end.

End Json.

(** [os.path.join(a, b)] on a POSIX system. *)
Definition path_join (a b : string) : string :=
  if String.prefix "/" b then b
  else if String.eqb a "" then a +:+ b
  else if String.eqb (String.substring (String.length a - 1) 1 a) "/" then a +:+ b
  else a +:+ "/" +:+ b.

Section Store.

Context {datum : Type}.
Variable cast_datum : datum -> string.
Variable resolver : string -> string -> bool.
Variable py_str : json -> string.

(** [fink_broker.__version__] and [fink_science.__version__]. *)
Variables fbvsn fsvsn : string.

(** *** [load_hbase_data] *)

(** [col.startswith(prefix)]: [NULL] on [NULL]. *)
Definition startswith (pre : string) (c : cell datum) : option bool :=
  (fun v => String.prefix pre (cast_string cast_datum v)) <$> c.

(** [~b] in SQL. *)
Definition sql_not (b : option bool) : option bool := negb <$> b.

(** [df.filter(condition)] keeps the records on which the condition is
    true; a record on which it is [NULL] is dropped. *)
Definition filter_rows (df : DataFrame datum)
    (condition : list (cell datum) -> option bool) : DataFrame datum :=
  {| schema := schema df;
     rows := List.filter (fun r => default false (condition r)) (rows df) |}.

(** [hbase_load catalog] is what the connector's [load()] gives for the
    catalog. *)
Definition load_hbase_data (hbase_load : string -> result (DataFrame datum))
    (catalog rowkey : string) : result (DataFrame datum) :=
  df ← hbase_load catalog;
  p ← resolve resolver df rowkey;
  Ok (filter_rows df
        (fun r => sql_not (startswith "schema_" (default None (r !! p.1))))).

(** *** Events *)

Inductive event : Type :=
| hbase_save (catalog : string) (newtable : Z) (df : DataFrame datum)
| file_write (path content : string).

(** The events so far, and the value returned or the exception raised. *)
Definition traced (A : Type) : Type := (list event * result A)%type.

Definition traced_bind {A B} (f : A → traced B) (m : traced A) : traced B :=
  match m with
  | (t, Ok a) => let '(t', r) := f a in (t ++ t', r)
  | (t, Raise e) => (t, Raise e)
  end.

Definition pure_step {A} (r : result A) : traced A := ([], r).

Definition emit (e : event) : traced unit := ([e], Ok tt).

#[local] Notation "'do' x <- m ; k" := (traced_bind (fun x => k) m)
  (at level 10, x name, m at level 100, k at level 200).

(** *** [write_catalog_on_disk] *)

Definition write_catalog_on_disk (catalog catalogname : string) : traced unit :=
  emit (file_write catalogname (Json.dumps catalog)).

(** *** [df.withColumnRenamed] *)

Definition withColumnRenamed (df : DataFrame datum) (existing new : string)
    : DataFrame datum :=
  {| schema := map (fun f => if resolver (name f) existing
                             then mkField new (dataType f) (nullable f)
                             else f) (schema df);
     rows := rows df |}.

(** *** [push_to_hbase] *)

Definition schema_row_key_name : string := "schema_version".

Definition schema_version : string :=
  "schema_" +:+ fbvsn +:+ "_" +:+ fsvsn.

Definition push_to_hbase (df : DataFrame datum) (table_name rowkeyname : string)
    (cf : gmap string string) (nregion : Z) (catfolder : string)
    : traced unit :=
  do hbcatalog_index <-
    pure_step (construct_hbase_catalog_from_flatten_schema py_str
                 (schema df) table_name rowkeyname cf);
  do _ <- emit (hbase_save hbcatalog_index nregion df);
  let file_name := table_name +:+ ".json" in
  do _ <- write_catalog_on_disk hbcatalog_index (path_join catfolder file_name);
  let df := withColumnRenamed df rowkeyname schema_row_key_name in
  do df_index_schema <-
    pure_step (construct_schema_row py_str df schema_row_key_name schema_version);
  do hbcatalog_index_schema <-
    pure_step (construct_hbase_catalog_from_flatten_schema py_str
                 (schema df_index_schema) table_name schema_row_key_name cf);
  do _ <- emit (hbase_save hbcatalog_index_schema nregion df_index_schema);
  let file_name := table_name +:+ "_schema_row.json" in
  write_catalog_on_disk hbcatalog_index_schema (path_join catfolder file_name).

(** The condition of the filter of [load_hbase_data] at the position [i]. *)
Definition is_data_row (i : nat) (r : list (cell datum)) : bool :=
  default false (sql_not (startswith "schema_" (default None (r !! i)))).

End Store.

Arguments startswith {datum} cast_datum pre c.
Arguments filter_rows {datum} df condition.
Arguments load_hbase_data {datum} cast_datum resolver hbase_load catalog rowkey.
Arguments hbase_save {datum} catalog newtable df.
Arguments file_write {datum} path content.
Arguments traced_bind {datum A B} f m.
Arguments pure_step {datum A} r.
Arguments emit {datum} e.
Arguments write_catalog_on_disk {datum} catalog catalogname.
Arguments withColumnRenamed {datum} resolver df existing new.
Arguments push_to_hbase {datum} resolver py_str fbvsn fsvsn df table_name
  rowkeyname cf nregion catfolder.
Arguments is_data_row {datum} cast_datum i r.

(** Two fields that the compiler does not tell apart: the same name and
    the same normalized type. *)
Definition same_entry (f g : StructField) : Prop :=
  name f = name g ∧
  normalized_type (dataType f) = normalized_type (dataType g).

(** Whether the character [c] occurs in [s]. *)
Fixpoint has_char (c : ascii) (s : string) : bool :=
  match s with
  | EmptyString => false
  | String x s' => Ascii.eqb x c || has_char c s'
  end.

(** ** Sample inputs

    The inputs of the specification's end-to-end scenarios and a few
    variations. A value that is not a string is given by the string that
    Spark's cast gives it; names are matched exactly (a case-sensitive
    session); an argument of [select] is the name of a top-level column. *)

Module Sample.

Definition cast_datum (d : string) : string := d.

Definition resolver : string -> string -> bool := String.eqb.

(** The printed form of the nested type of the samples. *)
Definition py_str (d : json) : string :=
  "{'type': 'array', 'elementType': 'double', 'containsNull': True}".

Definition analyze (df : DataFrame string) (n : string)
    : option (list (outcol string)) :=
  match resolve resolver df n with
  | Ok p => Some [mkOutcol p.2 (fun r => default None (r !! p.1))]
  | Raise _ => None
  end.

(** Scenario 1: one alert with its object identifier and Julian date. *)
Definition alerts : DataFrame string :=
  {| schema := [ mkField "objectId" (TStr "string") true;
                 mkField "jd" (TStr "double") true ];
     rows := [ [ Some (VStr "ZTF18abc"); Some (VDatum "2458849.5") ] ] |}.

(** A DataFrame that already has a column [objectId_jd]. *)
Definition alerts_with_key_column : DataFrame string :=
  {| schema := [ mkField "objectId" (TStr "string") true;
                 mkField "objectId_jd" (TStr "long") true;
                 mkField "jd" (TStr "double") true ];
     rows := [ [ Some (VStr "ZTF18abc"); Some (VDatum "7");
                 Some (VDatum "2458849.5") ] ] |}.

(** An alert whose [objectId] is [NULL]. *)
Definition alerts_with_null : DataFrame string :=
  {| schema := [ mkField "objectId" (TStr "string") true;
                 mkField "jd" (TStr "double") true ];
     rows := [ [ None; Some (VDatum "2458849.5") ] ] |}.

(** Scenario 2: the field [b] has no family. *)
Definition schema_ab : StructType :=
  [ mkField "a" (TStr "string") true; mkField "b" (TStr "timestamp") true ].

Definition cf_a : gmap string string := {[ "a" := "i" ]}.

(** A schema with a nested type and a family map that covers it. *)
Definition schema_abc : StructType :=
  [ mkField "a" (TStr "string") true;
    mkField "b" (TStr "timestamp") true;
    mkField "c" (TDict (JDict [("type", JStr "array");
                               ("elementType", JStr "double");
                               ("containsNull", JBool true)])) true ].

Definition cf_bc : gmap string string := <["b" := "i"]> {[ "c" := "d" ]}.

(** Scenario 3: a DataFrame with the columns [a] and [b]. *)
Definition df_ab : DataFrame string :=
  {| schema := [ mkField "a" (TStr "long") true; mkField "b" (TStr "long") true ];
     rows := [ [ Some (VDatum "1"); Some (VDatum "2") ] ] |}.

(** Scenario 4: a flattened DataFrame with a cutout and the schema-row
    key. *)
Definition df_cutout : DataFrame string :=
  {| schema := [ mkField "objectId" (TStr "string") true;
                 mkField "cutoutScience_stampData" (TStr "binary") true;
                 mkField "schema_version" (TStr "string") true ];
     rows := [] |}.

(** A version string of 80 characters and its first 75. *)
Definition long_version : string :=
  "schema_0123456789012345678901234567890123456789012345678901234567890123456789012".

Definition long_version_75 : string :=
  "schema_01234567890123456789012345678901234567890123456789012345678901234567".

(** A version string of 77 characters whose 75th is NUL, and its first
    74. *)
Definition seventy_four : string :=
  "schema_0123456789012345678901234567890123456789012345678901234567890123456".

Definition nul_version : string :=
  seventy_four +:+ String zero "bc".

End Sample.

(** Sample inputs for the store. *)

Module SampleStore.

(** A keyed DataFrame, as [attach_rowkey] returns it. *)
Definition keyed : DataFrame string :=
  {| schema := [ mkField "objectId" (TStr "string") true;
                 mkField "jd" (TStr "double") true;
                 mkField "objectId_jd" (TStr "string") false ];
     rows := [ [ Some (VStr "ZTF18abc"); Some (VDatum "2458849.5");
                 Some (VStr "ZTF18abc_2458849.5") ] ] |}.

Definition cf_keyed : gmap string string :=
  <["objectId" := "i"]> {[ "jd" := "i" ]}.

(** What a table holds after a push: a data row, the schema row and a
    record without key. *)
Definition table : DataFrame string :=
  {| schema := [ mkField "objectId" (TStr "string") true;
                 mkField "objectId_jd" (TStr "string") true ];
     rows := [ [ Some (VStr "ZTF18abc"); Some (VStr "ZTF18abc_2458849.5") ];
               [ Some (VStr "string"); Some (VStr "schema_2.4_3.1") ];
               [ Some (VStr "ZTF19xyz"); None ] ] |}.

Definition hbase_load (catalog : string) : result (DataFrame string) :=
  Ok table.

(** The schema row of scenario 4 for the versions 2.4 and 3.1. *)
Definition schema_row : DataFrame string :=
  {| schema := [ mkField "objectId" (TStr "string") true;
                 mkField "cutoutScience_stampData" (TStr "string") true;
                 mkField "schema_version" (TStr "string") true ];
     rows := [ [ Some (VStr "string"); Some (VStr "fits/image");
                 Some (VStr "schema_2.4_3.1") ] ] |}.

Definition cf_cutout : gmap string string :=
  <["objectId" := "i"]> {[ "cutoutScience_stampData" := "b" ]}.

(** The schema of scenario 2 with other nullabilities and [b] a string. *)
Definition schema_ab_strings : StructType :=
  [ mkField "a" (TStr "string") false; mkField "b" (TStr "string") false ].

Definition cf_ab : gmap string string := <["a" := "i"]> {[ "b" := "d" ]}.

End SampleStore.

(** * Properties *)

(** ** Strings *)

Lemma map_fmap {A B} (f : A → B) (l : list A) : map f l = f <$> l.
Proof. reflexivity. Qed.

Lemma append_cons (x : ascii) (a b : string) :
  String x a +:+ b = String x (a +:+ b).
Proof. reflexivity. Qed.

Lemma append_nil_l (a : string) : "" +:+ a = a.
Proof. reflexivity. Qed.

Lemma append_assoc (a b c : string) : (a +:+ b) +:+ c = a +:+ (b +:+ c).
Proof.
  induction a as [|x a IH]; [reflexivity|].
  rewrite !append_cons. f_equal. exact IH.
Qed.

Lemma append_nil_r (a : string) : a +:+ "" = a.
Proof.
  induction a as [|x a IH]; [reflexivity|].
  rewrite append_cons. f_equal. exact IH.
Qed.

Lemma cat_cons (x : string) (l : list string) :
  Str.cat (x :: l) = x +:+ Str.cat l.
Proof. reflexivity. Qed.

Lemma length_append (a b : string) :
  String.length (a +:+ b) = String.length a + String.length b.
Proof.
  induction a as [|x a IH]; [reflexivity|].
  rewrite append_cons. simpl. f_equal. exact IH.
Qed.

Lemma append_inj_r (a b c : string) : a +:+ c = b +:+ c → a = b.
Proof.
  revert b. induction a as [|x a IH]; intros [|y b] H.
  - reflexivity.
  - apply (f_equal String.length) in H.
    rewrite !length_append in H. simpl in H. lia.
  - apply (f_equal String.length) in H.
    rewrite !length_append in H. simpl in H. lia.
  - rewrite !append_cons in H. injection H as -> H. f_equal. by apply IH.
Qed.

(** ** The catalog compiler *)

Section CatalogFacts.

Variable py_str : json -> string.
Variables (rowkeyname : string) (cf : gmap string string).

Lemma normalize_column_name c : c_name (normalize_column c) = c_name c.
Proof.
  unfold normalize_column.
  destruct (is_dict (c_type c)); simpl;
    repeat match goal with |- context [if ?b then _ else _] => destruct b end;
    reflexivity.
Qed.

(** The two assignments compute the normalization of the specification. *)
Lemma normalize_column_type c :
  c_type (normalize_column c) = TStr (normalized_type (c_type c)).
Proof.
  unfold normalize_column, normalized_type.
  destruct (c_type c) as [s|d] eqn:E; simpl.
  - rewrite E. simpl. destruct (String.eqb_spec s "timestamp") as [->|]; simpl;
      [reflexivity | exact E].
  - reflexivity.
Qed.

(** A normalized list of dicts is left as it is by a second pass. *)
Lemma normalize_column_idem c :
  normalize_column (normalize_column c) = normalize_column c.
Proof.
  destruct c as [n [s|d] b]; unfold normalize_column; simpl.
  - destruct (String.eqb_spec s "timestamp") as [->|]; simpl; [reflexivity|].
    by destruct (String.eqb_spec s "timestamp").
  - reflexivity.
Qed.

Lemma format_rowkey_column n col ty sep :
  format_rowkey n col ty sep = format_column n "rowkey" col ty sep.
Proof. reflexivity. Qed.

Lemma format_column_entry e :
  format_column (e_key e) (e_cf e) (e_col e) (e_type e) "," = render_entry e.
Proof.
  unfold format_column, render_entry, entry_body.
  rewrite !cat_cons. simpl. rewrite !append_assoc. simpl.
  repeat (f_equal; rewrite ?append_assoc; simpl).
Qed.

Lemma annotation_text_entry : annotation_text = entry_body annotation_entry.
Proof. reflexivity. Qed.

(** The text appended for one column that is the row key or has a
    family. *)
Lemma emit_column_entry catalog (f : StructField) :
  (name f ≠ rowkeyname → is_Some (cf !! name f)) →
  ∃ e, entry_of rowkeyname cf f e ∧
       emit_column py_str rowkeyname cf "," catalog
                   (normalize_column (field_jsonValue f))
       = Ok (catalog +:+ render_entry e).
Proof.
  intros Hcov. unfold emit_column.
  rewrite normalize_column_name, normalize_column_type. simpl.
  destruct (String.eqb_spec (name f) rowkeyname) as [Heq|Hne].
  - exists (mkEntry (name f) "rowkey" (name f) (normalized_type (dataType f))).
    split.
    + unfold entry_of. simpl. rewrite (proj2 (String.eqb_eq _ _) Heq). done.
    + rewrite format_rowkey_column.
      by rewrite <- format_column_entry.
  - destruct (Hcov Hne) as [fam Hfam]. rewrite Hfam.
    exists (mkEntry (name f) fam (name f) (normalized_type (dataType f))).
    split.
    + unfold entry_of. simpl. rewrite (proj2 (String.eqb_neq _ _) Hne). done.
    + by rewrite <- format_column_entry.
Qed.

(** The loop appends one entry per field, in schema order, and leaves
    the dicts normalized. *)
Lemma catalog_loop_entries (schema : StructType) catalog :
  covers cf rowkeyname schema →
  ∃ entries,
    Forall2 (entry_of rowkeyname cf) schema entries ∧
    catalog_loop py_str rowkeyname cf "," (jsonValue_fields schema) catalog
    = Ok (catalog +:+ Str.cat (map render_entry entries),
          map normalize_column (jsonValue_fields schema)).
Proof.
  revert catalog. induction schema as [|f schema IH]; intros catalog Hcov.
  - exists []. split; [constructor|]. simpl. by rewrite append_nil_r.
  - destruct (emit_column_entry catalog f) as (e & He & Hemit).
    { intros Hne. apply Hcov; [left | done]. }
    destruct (IH (catalog +:+ render_entry e)) as (es & Hes & Hloop).
    { intros g Hg. apply Hcov. by right. }
    exists (e :: es). split; [by constructor|].
    unfold jsonValue_fields in *.
    cbn [map catalog_loop]. rewrite Hemit.
    cbn [mbind result_bind]. rewrite Hloop.
    cbn [map Str.cat fold_right]. by rewrite append_assoc.
Qed.

Lemma compile_columns_entries (schema : StructType) catalogname :
  covers cf rowkeyname schema →
  ∃ entries,
    Forall2 (entry_of rowkeyname cf) schema entries ∧
    compile_columns py_str (jsonValue_fields schema) catalogname rowkeyname cf
    = Ok (render_catalog catalogname rowkeyname entries,
          map normalize_column (jsonValue_fields schema)).
Proof.
  intros Hcov. unfold compile_columns.
  destruct (catalog_loop_entries schema
              (catalog_header catalogname rowkeyname) Hcov)
    as (es & Hes & Hloop).
  exists es. split; [done|]. cbv zeta. rewrite Hloop.
  cbn [mbind result_bind]. unfold render_catalog.
  rewrite annotation_text_entry. by rewrite !append_assoc.
Qed.

Lemma construct_catalog_entries (schema : StructType) catalogname :
  covers cf rowkeyname schema →
  ∃ entries,
    Forall2 (entry_of rowkeyname cf) schema entries ∧
    construct_hbase_catalog_from_flatten_schema
      py_str schema catalogname rowkeyname cf
    = Ok (render_catalog catalogname rowkeyname entries).
Proof.
  intros Hcov. unfold construct_hbase_catalog_from_flatten_schema.
  destruct (compile_columns_entries schema catalogname Hcov)
    as (es & Hes & Hc).
  exists es. split; [done|]. cbv zeta. by rewrite Hc.
Qed.

End CatalogFacts.

Section CatalogClaims.

Variable py_str : json -> string.

(** Running the loop on dicts that an earlier pass normalized gives what
    the earlier pass gave, so the in-place assignments cannot make two
    compilations differ. *)
Lemma catalog_loop_normalized rowkeyname cf sep cols catalog :
  catalog_loop py_str rowkeyname cf sep (map normalize_column cols) catalog
  = catalog_loop py_str rowkeyname cf sep cols catalog.
Proof.
  revert catalog. induction cols as [|c cols IH]; intros catalog.
  - reflexivity.
  - cbn [map catalog_loop]. rewrite normalize_column_idem.
    destruct (emit_column py_str rowkeyname cf sep catalog
                          (normalize_column c)) as [catalog'|e];
      cbn [mbind result_bind]; [|reflexivity].
    by rewrite IH.
Qed.

(** The body against one column: it appends text, or raises the
    [KeyError] of a name that is not the row key and has no family. *)
Lemma emit_column_cases rowkeyname cf sep catalog c :
  (∃ out, emit_column py_str rowkeyname cf sep catalog c = Ok out) ∨
  (emit_column py_str rowkeyname cf sep catalog c = Raise (KeyError (c_name c)) ∧
   c_name c ≠ rowkeyname ∧ cf !! c_name c = None).
Proof.
  unfold emit_column.
  destruct (String.eqb_spec (c_name c) rowkeyname) as [Heq|Hne].
  - left. eauto.
  - destruct (cf !! c_name c) as [fam|] eqn:E; [left; eauto | right; done].
Qed.

Lemma emit_column_missing rowkeyname cf sep catalog c :
  c_name c ≠ rowkeyname → cf !! c_name c = None →
  emit_column py_str rowkeyname cf sep catalog c = Raise (KeyError (c_name c)).
Proof.
  intros Hne Hnone. unfold emit_column.
  rewrite (proj2 (String.eqb_neq _ _) Hne). by rewrite Hnone.
Qed.

(** A field without a family stops the loop with a [KeyError]: the one of
    the first such field. *)
Lemma catalog_loop_missing rowkeyname cf sep (schema : StructType) catalog f :
  f ∈ schema → name f ≠ rowkeyname → cf !! name f = None →
  ∃ g, g ∈ schema ∧ name g ≠ rowkeyname ∧ cf !! name g = None ∧
       catalog_loop py_str rowkeyname cf sep (jsonValue_fields schema) catalog
       = Raise (KeyError (name g)).
Proof.
  intros Hin Hne Hnone. revert catalog.
  induction schema as [|h schema IH]; intros catalog.
  - by apply elem_of_nil in Hin.
  - unfold jsonValue_fields in *. cbn [map catalog_loop].
    destruct (emit_column_cases rowkeyname cf sep catalog
                (normalize_column (field_jsonValue h)))
      as [[out Hout] | (Hraise & Hk & Hm)].
    + rewrite Hout. cbn [mbind result_bind].
      apply elem_of_cons in Hin as [->|Hin].
      * rewrite emit_column_missing in Hout;
          rewrite ?normalize_column_name; done.
      * destruct (IH Hin out) as (g & Hg & Hgne & Hgm & Hloop).
        exists g. split; [by right|]. rewrite Hloop. done.
    + rewrite normalize_column_name in *. simpl in *.
      exists h. split; [by left|]. rewrite Hraise. done.
Qed.

(** C1. Catalog compilation is deterministic: when the family map covers
    every field but the row key, the compilation returns a catalog, a
    second call on the same schema, table name, row-key name and family
    map returns the same string, and so would a pass over the column
    dicts that the first call modified. *)
Theorem catalog_compilation_deterministic
    (schema : StructType) (catalogname rowkeyname : string)
    (cf : gmap string string) :
  covers cf rowkeyname schema →
  ∃ catalog cols,
    construct_hbase_catalog_from_flatten_schema
      py_str schema catalogname rowkeyname cf = Ok catalog ∧
    compile_twice py_str schema catalogname rowkeyname cf
      = Ok (catalog, catalog) ∧
    compile_columns py_str (jsonValue_fields schema) catalogname rowkeyname cf
      = Ok (catalog, cols) ∧
    compile_columns py_str cols catalogname rowkeyname cf = Ok (catalog, cols).
Proof.
  intros Hcov.
  destruct (compile_columns_entries py_str rowkeyname cf schema catalogname Hcov)
    as (es & _ & Hc).
  exists (render_catalog catalogname rowkeyname es),
         (map normalize_column (jsonValue_fields schema)).
  assert (Hone : construct_hbase_catalog_from_flatten_schema
                   py_str schema catalogname rowkeyname cf
                 = Ok (render_catalog catalogname rowkeyname es)).
  { unfold construct_hbase_catalog_from_flatten_schema. cbv zeta.
    by rewrite Hc. }
  repeat split.
  - exact Hone.
  - unfold compile_twice. by rewrite Hone.
  - exact Hc.
  - unfold compile_columns in *. cbv zeta in *.
    rewrite catalog_loop_normalized.
    destruct (catalog_loop py_str rowkeyname cf ","
                (jsonValue_fields schema)
                (catalog_header catalogname rowkeyname))
      as [[text cols]|e] eqn:E; cbn [mbind result_bind] in *; [|done].
    injection Hc as Ht Hcols. by rewrite Ht, Hcols.
Qed.

(** C2. A field that is not the row key and has no entry in the family
    map makes the compilation raise [KeyError]: no catalog is returned,
    the field is not skipped and no family is made up for it. The key of
    the error is the name of such a field. *)
Theorem missing_family_aborts_compilation
    (schema : StructType) (catalogname rowkeyname : string)
    (cf : gmap string string) (f : StructField) :
  f ∈ schema → name f ≠ rowkeyname → cf !! name f = None →
  ∃ g, g ∈ schema ∧ name g ≠ rowkeyname ∧ cf !! name g = None ∧
       construct_hbase_catalog_from_flatten_schema
         py_str schema catalogname rowkeyname cf
       = Raise (KeyError (name g)).
Proof.
  intros Hin Hne Hnone.
  destruct (catalog_loop_missing rowkeyname cf "," schema
              (catalog_header catalogname rowkeyname) f Hin Hne Hnone)
    as (g & Hg & Hgne & Hgm & Hloop).
  exists g. repeat split; try done.
  unfold construct_hbase_catalog_from_flatten_schema, compile_columns.
  cbv zeta. by rewrite Hloop.
Qed.

(** C3. Every schema field gets an entry whose type is normalized: a
    nested (dict-valued) type and [timestamp] are emitted as [string],
    any other type name is emitted unchanged. *)
Theorem emitted_types_are_normalized
    (schema : StructType) (catalogname rowkeyname : string)
    (cf : gmap string string) :
  covers cf rowkeyname schema →
  ∃ entries,
    construct_hbase_catalog_from_flatten_schema
      py_str schema catalogname rowkeyname cf
    = Ok (render_catalog catalogname rowkeyname entries) ∧
    Forall2 (fun f e =>
               e_key e = name f ∧
               match dataType f with
               | TDict _ => e_type e = "string"
               | TStr s =>
                   if decide (s = "timestamp") then e_type e = "string"
                   else e_type e = s
               end) schema entries.
Proof.
  intros Hcov.
  destruct (construct_catalog_entries py_str rowkeyname cf schema catalogname Hcov)
    as (es & Hes & Hc).
  exists es. split; [exact Hc|].
  eapply Forall2_impl; [exact Hes|].
  intros f e (Hk & _ & Ht & _). split; [exact Hk|].
  rewrite Ht. unfold normalized_type.
  destruct (dataType f) as [s|d]; [|reflexivity].
  destruct (decide (s = "timestamp")) as [->|Hs]; [reflexivity|].
  by rewrite (proj2 (String.eqb_neq _ _) Hs).
Qed.

(** C4. With a covering family map the catalog holds one entry per
    schema field, in schema order, the row key's entry (family [rowkey])
    at the place of its field, and after them, once and last, the
    annotation entry: family [a], empty qualifier, type [string]. *)
Theorem catalog_entries_in_schema_order_annotation_last
    (schema : StructType) (catalogname rowkeyname : string)
    (cf : gmap string string) :
  covers cf rowkeyname schema →
  ∃ entries,
    Forall2 (entry_of rowkeyname cf) schema entries ∧
    construct_hbase_catalog_from_flatten_schema
      py_str schema catalogname rowkeyname cf
    = Ok (Str.replace Str.squote Str.dquote
            (catalog_header catalogname rowkeyname +:+
             Str.cat (map render_entry entries) +:+
             entry_body (mkEntry "annotation" "a" "" "string") +:+
             catalog_footer)).
Proof.
  intros Hcov.
  destruct (construct_catalog_entries py_str rowkeyname cf schema catalogname Hcov)
    as (es & Hes & Hc).
  exists es. split; [exact Hes | exact Hc].
Qed.

End CatalogClaims.

(** ** The column classifier and the family assignment *)

Section SelectFacts.

Context {datum Col : Type}.
Variable analyze : DataFrame datum -> Col -> option (list (outcol datum)).

Lemma resolves_analyze df c :
  resolves analyze df c = match analyze df c with Some _ => true | None => false end.
Proof.
  unfold resolves, select. cbn [analyze_all].
  by destruct (analyze df c).
Qed.

(** [select] raises nothing but [AnalysisException]. *)
Lemma select_raises df cols e :
  select analyze df cols = Raise e → e = AnalysisException.
Proof.
  unfold select.
  assert (H : ∀ e', analyze_all analyze df cols = Raise e' →
                    e' = AnalysisException).
  { induction cols as [|c cols IH]; intros e' He'; [done|].
    cbn [analyze_all] in He'. destruct (analyze df c); [|by injection He'].
    destruct (analyze_all analyze df cols) as [outs|e''];
      cbn [mbind result_bind] in He'; [done|].
    injection He' as <-. by apply IH. }
  destruct (analyze_all analyze df cols) as [outs|e'] eqn:E;
    cbn [mbind result_bind]; [done|].
  intros [= <-]. by apply H.
Qed.

(** The loop sorts the desired columns, in their order, into those that
    resolve and those that do not. *)
Lemma classify_columns_filter df cols cnames missing_cols :
  classify_columns analyze df cols cnames missing_cols
  = Ok (cnames ++ List.filter (resolves analyze df) cols,
        missing_cols ++ List.filter (fun c => negb (resolves analyze df c)) cols).
Proof.
  revert cnames missing_cols.
  induction cols as [|c cols IH]; intros cnames missing_cols.
  - cbn [classify_columns List.filter]. by rewrite !app_nil_r.
  - cbn [classify_columns List.filter].
    assert (Hc : resolves analyze df c = is_ok (select analyze df [c])) by done.
    destruct (select analyze df [c]) as [d|e] eqn:E;
      rewrite Hc; cbn [is_ok negb].
    + rewrite IH. by rewrite <- !app_assoc.
    + rewrite (select_raises _ _ _ E). rewrite IH. by rewrite <- !app_assoc.
Qed.

(** Columns that resolve one by one resolve together. *)
Lemma analyze_all_resolved df cols :
  Forall (fun c => resolves analyze df c = true) cols →
  ∃ outs, analyze_all analyze df cols = Ok outs.
Proof.
  induction 1 as [|c cols Hc _ [outs IH]]; [by exists []|].
  cbn [analyze_all]. rewrite resolves_analyze in Hc.
  destruct (analyze df c) as [out|]; [|done].
  rewrite IH. by exists (out ++ outs).
Qed.

Lemma select_resolved df cols :
  ∃ df', select analyze df (List.filter (resolves analyze df) cols) = Ok df'.
Proof.
  destruct (analyze_all_resolved df (List.filter (resolves analyze df) cols))
    as [outs Houts].
  { apply List.Forall_forall. intros c Hc.
    by apply List.filter_In in Hc as [_ Hc]. }
  unfold select. rewrite Houts. cbn [mbind result_bind]. eauto.
Qed.

(** C5. For every DataFrame and every list of desired columns,
    [select_relevant_columns] (without [to_create]) returns the
    projection on the desired columns that resolve, in input order; the
    others make up the missing list, which is what the logger, when
    there is one, is given; the call returns and raises nothing. *)
Theorem select_relevant_columns_skips_missing
    (df : DataFrame datum) (cols : list Col) (logger : bool) :
  ∃ df',
    select analyze df (List.filter (resolves analyze df) cols) = Ok df' ∧
    select_relevant_columns analyze df cols logger None
    = Ok (df',
          if logger
          then [info_missing_columns
                  (List.filter (fun c => negb (resolves analyze df c)) cols)]
          else []).
Proof.
  destruct (select_resolved df cols) as [df' Hsel].
  exists df'. split; [exact Hsel|].
  unfold select_relevant_columns.
  rewrite classify_columns_filter. cbn [mbind result_bind app].
  rewrite Hsel. reflexivity.
Qed.

(** *** Family assignment *)

Lemma dict_of_fold tag names (m : gmap string string) k :
  fold_left (fun m i => <[i := tag]> m) names m !! k
  = if bool_decide (k ∈ names) then Some tag else m !! k.
Proof.
  revert m. induction names as [|n names IH]; intros m.
  - cbn [fold_left]. by rewrite bool_decide_eq_false_2 by apply not_elem_of_nil.
  - cbn [fold_left]. rewrite IH.
    destruct (decide (k ∈ names)) as [Hin|Hnin].
    + rewrite !bool_decide_eq_true_2; [done | by right | done].
    + rewrite (bool_decide_eq_false_2 _ Hnin).
      destruct (decide (k = n)) as [->|Hne].
      * rewrite lookup_insert_eq.
        by rewrite bool_decide_eq_true_2 by left.
      * rewrite lookup_insert_ne by done.
        rewrite bool_decide_eq_false_2; [done|].
        intros [?|?]%elem_of_cons; done.
Qed.

Lemma dict_of_lookup tag names k :
  dict_of tag names !! k = if bool_decide (k ∈ names) then Some tag else None.
Proof. unfold dict_of. by rewrite dict_of_fold, lookup_empty. Qed.

(** The map that the three updates build: a name of the binary bucket is
    in family [b], else one of the derived bucket in [d], else one of the
    identity bucket in [i]; the bucket applied last wins. *)
Lemma assign_column_family_names_lookup df cols_i cols_d cols_b cf k :
  assign_column_family_names analyze df cols_i cols_d cols_b = Ok cf →
  ∃ df_i df_d df_b,
    select analyze df cols_i = Ok df_i ∧
    select analyze df cols_d = Ok df_d ∧
    select analyze df cols_b = Ok df_b ∧
    cf !! k =
      if bool_decide (k ∈ columns df_b) then Some "b"
      else if bool_decide (k ∈ columns df_d) then Some "d"
      else if bool_decide (k ∈ columns df_i) then Some "i"
      else None.
Proof.
  unfold assign_column_family_names.
  destruct (select analyze df cols_i) as [df_i|]; [|done].
  destruct (select analyze df cols_d) as [df_d|]; [|done].
  destruct (select analyze df cols_b) as [df_b|]; [|done].
  cbn [mbind result_bind]. intros [= <-].
  exists df_i, df_d, df_b. repeat split.
  unfold update. rewrite !lookup_union, !dict_of_lookup.
  repeat case_bool_decide; reflexivity.
Qed.

(** C8. Calling [assign_column_family_names] twice with the same
    DataFrame and the same three bucket lists gives the same result: the
    second call returns the map of the first (or raises as the first
    did). *)
Theorem assign_column_family_names_idempotent
    (df : DataFrame datum) (cols_i cols_d cols_b : list Col) :
  assign_twice analyze df cols_i cols_d cols_b
  = (cf ← assign_column_family_names analyze df cols_i cols_d cols_b;
     Ok (cf, cf)).
Proof.
  unfold assign_twice.
  destruct (assign_column_family_names analyze df cols_i cols_d cols_b)
    as [cf|e] eqn:E; cbn [mbind result_bind]; reflexivity.
Qed.

End SelectFacts.

(** ** The row-key builder *)

Section RowKeyFacts.

Context {datum : Type}.
Variable cast_datum : datum -> string.
Variable resolver : string -> string -> bool.

Lemma row_key_name : Str.join "_" retrieve_row_key_cols = "objectId_jd".
Proof. reflexivity. Qed.

(** With both key cells present the key is their string forms with [sep]
    in between. *)
Lemma rowkey_value_present sep i j (r : list (cell datum)) v1 v2 :
  r !! i = Some (Some v1) → r !! j = Some (Some v2) →
  rowkey_value cast_datum sep i j r
  = Some (VStr (cast_string cast_datum v1 +:+ sep +:+
                cast_string cast_datum v2)).
Proof. intros Hi Hj. unfold rowkey_value. by rewrite Hi, Hj. Qed.

(** The expression that [attach_rowkey] builds, bound to a DataFrame
    where both key columns resolve. *)
Lemma bind_rowkey_expression df sep i fi j fj :
  resolve resolver df "objectId" = Ok (i, fi) →
  resolve resolver df "jd" = Ok (j, fj) →
  ∃ b,
    bind_column cast_datum resolver df
      (concat_ws sep (map (fun n => astype_string (col n)) retrieve_row_key_cols))
    = Ok b ∧
    b_type b = TStr "string" ∧ b_nullable b = false ∧
    ∀ r, b_eval b r = rowkey_value cast_datum sep i j r.
Proof.
  intros Hi Hj. eexists. split.
  - cbn [retrieve_row_key_cols map bind_column]. rewrite Hi, Hj.
    cbn [mbind result_bind]. reflexivity.
  - repeat split. intros r. cbn [b_eval map fst snd].
    unfold rowkey_value, eval_concat_ws. do 3 f_equal.
    destruct (default None (r !! i)) as [[s1|d1]|],
             (default None (r !! j)) as [[s2|d2]|]; reflexivity.
Qed.

Lemma zip_with_ext_l {A B C} (f g : A → B → C) (l : list A) (k : list B) :
  (∀ x y, f x y = g x y) → zip_with f l k = zip_with g l k.
Proof.
  intros H. revert k. induction l as [|x l IH]; intros [|y k]; simpl;
    [done..|]. by rewrite H, IH.
Qed.

Lemma attach_rowkey_result df sep i fi j fj :
  resolve resolver df "objectId" = Ok (i, fi) →
  resolve resolver df "jd" = Ok (j, fj) →
  attach_rowkey cast_datum resolver df sep
  = Ok (with_rowkey cast_datum resolver df sep i j, "objectId_jd").
Proof.
  intros Hi Hj.
  destruct (bind_rowkey_expression df sep i fi j fj Hi Hj)
    as (b & Hb & Hty & Hnull & Hev).
  unfold attach_rowkey, withColumn. cbv zeta. rewrite Hb.
  cbn [mbind result_bind]. rewrite row_key_name, Hty, Hnull.
  unfold with_rowkey, with_rowkey_schema, with_rowkey_row.
  fold rowkey_field. fold (rowkey_hit resolver).
  destruct (existsb (rowkey_hit resolver) (schema df)); cbn [mbind result_bind];
    do 3 f_equal.
  - apply map_ext. intros r. apply zip_with_ext_l. intros f v.
    by rewrite Hev.
  - apply map_ext. intros r. by rewrite Hev.
Qed.

(** The key column is among the columns of the result. *)
Lemma with_rowkey_has_key (df : DataFrame datum) :
  "objectId_jd" ∈ map name (with_rowkey_schema resolver df).
Proof.
  unfold with_rowkey_schema.
  destruct (existsb (rowkey_hit resolver) (schema df)) eqn:E.
  - apply existsb_exists in E as (f & Hf & Hhit).
    apply list_elem_of_In in Hf.
    rewrite <- list_fmap_compose. apply list_elem_of_fmap.
    exists f. split; [|exact Hf]. simpl. by rewrite Hhit.
  - rewrite map_app. apply elem_of_app. right. by left.
Qed.

(** In a record as wide as the schema, every column named [objectId_jd]
    of the result holds the key of the record. *)
Lemma with_rowkey_key_cells (df : DataFrame datum) sep i j r k f' :
  (∀ s, resolver s s = true) →
  length r = length (schema df) →
  with_rowkey_schema resolver df !! k = Some f' → name f' = "objectId_jd" →
  with_rowkey_row cast_datum resolver df sep i j r !! k = Some (rowkey_value cast_datum sep i j r).
Proof.
  intros Hrefl Hlen Hk Hname.
  unfold with_rowkey_schema, with_rowkey_row in *.
  destruct (existsb (rowkey_hit resolver) (schema df)) eqn:E.
  - rewrite map_fmap, list_lookup_fmap in Hk.
    destruct (schema df !! k) as [f|] eqn:Hf; [|done].
    injection Hk as Hk.
    destruct (lookup_lt_is_Some_2 r k) as [v Hv].
    { rewrite Hlen. by eapply lookup_lt_Some. }
    rewrite lookup_zip_with, Hf, Hv. simpl.
    destruct ((rowkey_hit resolver) f) eqn:Hhit; [done|].
    subst f'. unfold rowkey_hit in Hhit. rewrite Hname, Hrefl in Hhit. done.
  - destruct (decide (k < length (schema df))) as [Hlt|Hge].
    + rewrite lookup_app_l in Hk by done.
      assert (Hex : existsb (rowkey_hit resolver) (schema df) = true).
      { apply existsb_exists. exists f'. split.
        - apply list_elem_of_In. by eapply list_elem_of_lookup_2.
        - unfold rowkey_hit. by rewrite Hname, Hrefl. }
      congruence.
    + assert (k = length (schema df)) as ->.
      { apply lookup_lt_Some in Hk. rewrite length_app in Hk. simpl in Hk. lia. }
      rewrite <- Hlen. by rewrite lookup_app_r, Nat.sub_diag.
Qed.

(** C6, amended. When [objectId] and [jd] resolve and no column of the
    DataFrame answers to the name [objectId_jd], [attach_rowkey] with
    the separator [_] keeps every source column and appends, last, the
    string column [objectId_jd]; its value in a record is the [_]-join
    of the string forms of the record's [objectId] and [jd] cells that
    are not [NULL], so [s1_s2] when both are present. *)
Theorem attach_rowkey_appends_joined_key
    (df : DataFrame datum) (i j : nat) (fi fj : StructField) :
  resolve resolver df "objectId" = Ok (i, fi) →
  resolve resolver df "jd" = Ok (j, fj) →
  existsb (fun f => resolver (name f) "objectId_jd") (schema df) = false →
  attach_rowkey cast_datum resolver df "_"
  = Ok ({| schema := schema df ++ [mkField "objectId_jd" (TStr "string") false];
           rows := map (fun r => r ++ [rowkey_value cast_datum "_" i j r]) (rows df) |},
        "objectId_jd") ∧
  ∀ (r : list (cell datum)) v1 v2,
    r !! i = Some (Some v1) → r !! j = Some (Some v2) →
    rowkey_value cast_datum "_" i j r
    = Some (VStr (cast_string cast_datum v1 +:+ "_" +:+
                  cast_string cast_datum v2)).
Proof.
  intros Hi Hj Hfree. split.
  - rewrite (attach_rowkey_result df "_" i fi j fj Hi Hj).
    unfold with_rowkey, with_rowkey_schema, with_rowkey_row.
    change (existsb (rowkey_hit resolver) (schema df)) with
      (existsb (fun f => resolver (name f) "objectId_jd") (schema df)).
    rewrite Hfree. reflexivity.
  - intros r v1 v2. apply rowkey_value_present.
Qed.

(** C9. Whatever separator [sep] is passed, [attach_rowkey] names the
    key column [objectId_jd], the key columns joined with the literal
    [_], while the key of a record joins the string forms of its key
    cells with [sep]; so for a [sep] other than [_] the key of a record
    is not the [_]-join that the name of the column shows. *)
Theorem rowkey_name_ignores_separator
    (df : DataFrame datum) (sep : string) (i j : nat) (fi fj : StructField) :
  (∀ s, resolver s s = true) →
  resolve resolver df "objectId" = Ok (i, fi) →
  resolve resolver df "jd" = Ok (j, fj) →
  ∃ df',
    attach_rowkey cast_datum resolver df sep
    = Ok (df', Str.join "_" retrieve_row_key_cols) ∧
    Str.join "_" retrieve_row_key_cols = "objectId_jd" ∧
    "objectId_jd" ∈ columns df' ∧
    (∀ n r, rows df !! n = Some r → length r = length (schema df) →
       ∃ r', rows df' !! n = Some r' ∧
             ∀ k f', schema df' !! k = Some f' → name f' = "objectId_jd" →
                     r' !! k = Some (rowkey_value cast_datum sep i j r)) ∧
    (∀ (r : list (cell datum)) v1 v2,
       r !! i = Some (Some v1) → r !! j = Some (Some v2) →
       rowkey_value cast_datum sep i j r
       = Some (VStr (cast_string cast_datum v1 +:+ sep +:+
                     cast_string cast_datum v2)) ∧
       (sep ≠ "_" →
        rowkey_value cast_datum sep i j r
        ≠ Some (VStr (cast_string cast_datum v1 +:+ "_" +:+
                      cast_string cast_datum v2)))).
Proof.
  intros Hrefl Hi Hj. exists (with_rowkey cast_datum resolver df sep i j).
  split; [by rewrite row_key_name; apply (attach_rowkey_result df sep i fi j fj)|].
  split; [apply row_key_name|].
  split; [apply with_rowkey_has_key|].
  split.
  - intros n r Hn Hlen. exists (with_rowkey_row cast_datum resolver df sep i j r). split.
    + cbn [with_rowkey rows]. by rewrite map_fmap, list_lookup_fmap, Hn.
    + intros k f' Hk Hname. by eapply with_rowkey_key_cells.
  - intros r v1 v2 H1 H2.
    rewrite (rowkey_value_present sep i j r v1 v2 H1 H2).
    split; [reflexivity|].
    intros Hsep [= Heq]. apply Hsep.
    apply (inj (String.app _)) in Heq.
    by apply append_inj_r in Heq.
Qed.

End RowKeyFacts.

(** ** Fixed-width numpy strings *)

Lemma take_nil (n : nat) : Str.take n "" = "".
Proof. by destruct n. Qed.

Lemma take_cons (n : nat) (c : ascii) (s : string) :
  Str.take (S n) (String c s) = String c (Str.take n s).
Proof. reflexivity. Qed.

Lemma length_take (n : nat) (s : string) :
  String.length (Str.take n s) = Nat.min n (String.length s).
Proof.
  revert s. induction n as [|n IH]; intros [|c s]; try reflexivity.
  rewrite take_cons. simpl. by rewrite IH.
Qed.

Lemma take_all (n : nat) (s : string) :
  String.length s ≤ n → Str.take n s = s.
Proof.
  revert s. induction n as [|n IH]; intros [|c s] Hlen; try reflexivity.
  - simpl in Hlen. lia.
  - rewrite take_cons. f_equal. apply IH. simpl in Hlen. lia.
Qed.

Lemma get_take (n k : nat) (s : string) :
  k < n → String.get k (Str.take n s) = String.get k s.
Proof.
  revert k s. induction n as [|n IH]; intros k [|c s] Hk; try lia.
  - by rewrite take_nil.
  - rewrite take_cons. destruct k as [|k]; [reflexivity|].
    simpl. apply IH. lia.
Qed.

Lemma rstrip_nul_cons (c : ascii) (s : string) :
  Str.rstrip_nul (String c s) =
  match Str.rstrip_nul s with
  | EmptyString => if Ascii.eqb c zero then EmptyString else String c EmptyString
  | t => String c t
  end.
Proof. reflexivity. Qed.

(** A string that does not end with NUL is read back as it is. *)
Lemma rstrip_nul_id (s : string) :
  (∀ n, String.length s = S n → String.get n s ≠ Some zero) →
  Str.rstrip_nul s = s.
Proof.
  induction s as [|c s IH]; intros Hlast; [reflexivity|].
  rewrite rstrip_nul_cons. destruct s as [|c' s].
  - simpl. destruct (Ascii.eqb_spec c zero) as [->|]; [|reflexivity].
    by destruct (Hlast 0 eq_refl).
  - rewrite IH; [reflexivity|].
    intros n Hn. apply (Hlast (S n)). simpl in *. lia.
Qed.

(** What an element of a [<U75] array gives back for a string longer than
    75 characters whose 75th character is not NUL: its first 75
    characters. *)
Lemma np_truncates (s : string) :
  75 < String.length s →
  String.length (np_store s) = 75 ∧
  (String.get 74 s ≠ Some zero → np_item (np_store s) = Str.take 75 s).
Proof.
  intros Hlen. unfold np_store, np_item.
  assert (Hl : String.length (Str.take 75 s) = 75)
    by (rewrite length_take; lia).
  split; [exact Hl|]. intros Hlast. apply rstrip_nul_id.
  intros n Hn. rewrite Hl in Hn. injection Hn as <-.
  by rewrite get_take by lia.
Qed.

(** A string of at most 75 characters that does not end with NUL goes
    through a [<U75] array unchanged. *)
Lemma np_keeps_short (s : string) :
  String.length s ≤ 75 → Str.rstrip_nul s = s → np_item (np_store s) = s.
Proof.
  intros Hlen Hs. unfold np_store, np_item. by rewrite take_all.
Qed.

(** Trailing NULs do not change whether a string without NUL occurs. *)
Lemma prefix_nil_r (sub : string) :
  String.prefix sub "" = true → sub = "".
Proof. by destruct sub. Qed.

Lemma prefix_rstrip_nul (sub s : string) :
  Str.nul_free sub = true →
  String.prefix sub (Str.rstrip_nul s) = String.prefix sub s.
Proof.
  revert s. induction sub as [|a sub IH]; intros s Hfree.
  - by destruct s, (Str.rstrip_nul _).
  - simpl in Hfree. apply andb_true_iff in Hfree as [Ha Hfree].
    apply negb_true_iff in Ha.
    destruct s as [|c s]; [reflexivity|].
    rewrite rstrip_nul_cons. specialize (IH s Hfree).
    destruct (Str.rstrip_nul s) as [|c' t] eqn:E.
    + destruct (Ascii.eqb_spec c zero) as [->|Hc].
      * simpl. destruct (ascii_dec a zero) as [->|Hne]; [|reflexivity].
        by rewrite Ascii.eqb_refl in Ha.
      * simpl. destruct (ascii_dec a c); [|reflexivity].
        rewrite <- IH. by destruct sub.
    + simpl. destruct (ascii_dec a c); [|reflexivity]. exact IH.
Qed.

Lemma contains_rstrip_nul (sub s : string) :
  Str.nul_free sub = true → sub ≠ "" →
  Str.contains sub (Str.rstrip_nul s) = Str.contains sub s.
Proof.
  intros Hfree Hne.
  assert (Hnil : Str.contains sub "" = false).
  { destruct sub; [done | reflexivity]. }
  induction s as [|c s IH]; [reflexivity|].
  change (Str.contains sub (String c s))
    with (String.prefix sub (String c s) || Str.contains sub s).
  rewrite <- (prefix_rstrip_nul sub (String c s) Hfree).
  rewrite rstrip_nul_cons in *.
  destruct (Str.rstrip_nul s) as [|c' t] eqn:E.
  - rewrite <- IH, Hnil.
    destruct (Ascii.eqb c zero).
    + by destruct sub.
    + change (Str.contains sub (String c ""))
        with (String.prefix sub (String c "") || Str.contains sub "").
      by rewrite Hnil.
  - change (Str.contains sub (String c (String c' t)))
      with (String.prefix sub (String c (String c' t)) ||
            Str.contains sub (String c' t)).
    by rewrite IH.
Qed.

Lemma np_eqb_refl (s : string) : np_eqb s s = true.
Proof. unfold np_eqb. apply String.eqb_refl. Qed.

(** ** The schema-row synthesizer *)

Section SchemaRowFacts.

Context {datum : Type}.
Variable py_str : json -> string.

Lemma np_where_first x a i0 index rest :
  np_where x a i0 = index :: rest →
  ∃ k, index = i0 + k ∧ first_match x a k.
Proof.
  revert i0. induction a as [|y a IH]; intros i0 H; [done|].
  cbn [np_where] in H. destruct (np_eqb y x) eqn:E.
  - injection H as <- _. exists 0. split; [lia|]. split.
    + exists y. done.
    + intros k c Hk. lia.
  - destruct (IH (S i0) H) as (k & -> & (c & Hc & Hcx) & Hbefore).
    exists (S k). split; [lia|]. split.
    + exists c. done.
    + intros [|k'] c' Hk' Hc'.
      * injection Hc' as <-. exact E.
      * apply (Hbefore k' c'); [lia | exact Hc'].
Qed.

Lemma np_where_found x a i0 :
  x ∈ a → ∃ index rest, np_where x a i0 = index :: rest.
Proof.
  revert i0. induction a as [|y a IH]; intros i0 Hin.
  - by apply elem_of_nil in Hin.
  - cbn [np_where]. destruct (np_eqb y x) eqn:E; [simpl; eauto|].
    apply elem_of_cons in Hin as [->|Hin].
    + by rewrite np_eqb_refl in E.
    + simpl. by apply IH.
Qed.

Lemma zip_with_map_map {A B C D} (h : B → C → D) (f : A → B) (g : A → C) l :
  zip_with h (map f l) (map g l) = map (fun x => h (f x) (g x)) l.
Proof. induction l as [|x l IH]; simpl; [done | by rewrite IH]. Qed.

(** The call unfolded: one record over the columns of [df], read back from
    the array. *)
Lemma construct_schema_row_result (df : DataFrame datum) rowkeyname version
    index rest :
  np_where rowkeyname (columns df) 0 = index :: rest →
  ∃ cells,
    construct_schema_row py_str df rowkeyname version
    = Ok {| schema := map (fun n => mkField n (TStr "string") true) (columns df);
            rows := [cells] |} ∧
    length cells = length (schema df) ∧
    index < length (schema df) ∧
    ∀ k f, schema df !! k = Some f →
      cells !! k
      = Some (Some (VStr (np_item (np_store
                            (schema_row_source py_str index version k f))))).
Proof.
  intros Hw. unfold construct_schema_row. cbv zeta. rewrite Hw.
  eexists. split; [reflexivity|].
  destruct (np_where_first _ _ _ _ _ Hw) as (k0 & Hk0 & (c & Hc & _) & _).
  simpl in Hk0. subst k0.
  assert (Hidx : index < length (schema df)).
  { apply lookup_lt_Some in Hc. unfold columns in Hc.
    by rewrite length_map in Hc. }
  rewrite map_map, zip_with_map_map.
  split; [by rewrite length_map, length_insert, length_map|].
  split; [exact Hidx|].
  intros k f Hf. rewrite map_fmap, list_lookup_fmap.
  unfold schema_row_source.
  destruct (decide (k = index)) as [->|Hne].
  - rewrite list_lookup_insert_eq by (by rewrite length_map). reflexivity.
  - rewrite list_lookup_insert_ne by done.
    rewrite map_fmap, list_lookup_fmap, Hf. cbn [fmap option_fmap option_map].
    cbn [field_jsonValue c_name c_type].
    unfold np_item at 2.
    rewrite (contains_rstrip_nul "cutout" (name f)) by done.
    destruct (Str.contains "cutout" (name f)); reflexivity.
Qed.

(** C7, amended. When [rowkeyname] is a column of [df],
    [construct_schema_row] returns a DataFrame with the columns of [df],
    in their order, and one record. The record holds, each cut to its
    first 75 characters and without the NULs that end them: the version
    string in the first column equal to [rowkeyname], [fits/image] in the
    other columns whose name contains [cutout], and in the rest the
    declared type of the column. A value of at most 75 characters that
    does not end with NUL is held as it is. *)
Theorem schema_row_holds_types_cut_to_75
    (df : DataFrame datum) (rowkeyname version : string) :
  rowkeyname ∈ columns df →
  ∃ df' index cells,
    construct_schema_row py_str df rowkeyname version = Ok df' ∧
    columns df' = columns df ∧
    rows df' = [cells] ∧
    length cells = length (columns df) ∧
    first_match rowkeyname (columns df) index ∧
    (∀ k f, schema df !! k = Some f →
       cells !! k
       = Some (Some (VStr (np_item (np_store
            (if decide (k = index) then version
             else if Str.contains "cutout" (name f) then "fits/image"
             else format_type py_str (dataType f))))))) ∧
    (∀ s, String.length s ≤ 75 → Str.rstrip_nul s = s →
          np_item (np_store s) = s).
Proof.
  intros Hin.
  destruct (np_where_found rowkeyname (columns df) 0 Hin) as (index & rest & Hw).
  destruct (construct_schema_row_result df rowkeyname version index rest Hw)
    as (cells & Hres & Hlen & _ & Hcells).
  eexists _, index, cells. split; [exact Hres|].
  split.
  { unfold columns at 1. cbn [schema]. rewrite map_map. cbn [name].
    apply map_id. }
  split; [reflexivity|].
  split; [by unfold columns; rewrite length_map|].
  split.
  { destruct (np_where_first _ _ _ _ _ Hw) as (k0 & Hk0 & Hfirst).
    simpl in Hk0. by subst k0. }
  split; [exact Hcells | exact np_keeps_short].
Qed.

(** C10, amended. The values of the record go through an array of dtype
    [<U75]: the cell of the key column is the version string, and the
    cell of a column that is neither the key nor a [cutout] column is the
    printed form of its declared type, each cut to its first 75 characters
    and read back without the NULs that end that prefix. For a string
    longer than 75 characters whose 75th character is not NUL this is its
    first 75 characters exactly. *)
Theorem schema_row_values_cut_to_75_without_trailing_nul
    (df : DataFrame datum) (rowkeyname version : string)
    (index : nat) (rest : list nat) :
  np_where rowkeyname (columns df) 0 = index :: rest →
  ∃ cells,
    construct_schema_row py_str df rowkeyname version
    = Ok {| schema := map (fun n => mkField n (TStr "string") true) (columns df);
            rows := [cells] |} ∧
    cells !! index
    = Some (Some (VStr (Str.rstrip_nul (Str.take 75 version)))) ∧
    (∀ k f, schema df !! k = Some f → k ≠ index →
       Str.contains "cutout" (name f) = false →
       cells !! k
       = Some (Some (VStr (Str.rstrip_nul
                             (Str.take 75 (format_type py_str (dataType f))))))) ∧
    (∀ s, 75 < String.length s →
       String.length (Str.take 75 s) = 75 ∧
       (String.get 74 s ≠ Some zero →
        Str.rstrip_nul (Str.take 75 s) = Str.take 75 s)).
Proof.
  intros Hw.
  destruct (construct_schema_row_result df rowkeyname version index rest Hw)
    as (cells & Hres & Hlen & Hidx & Hcells).
  exists cells. split; [exact Hres|]. split; [|split].
  - destruct (lookup_lt_is_Some_2 (schema df) index Hidx) as [f Hf].
    rewrite (Hcells index f Hf). unfold schema_row_source.
    by rewrite decide_True.
  - intros k f Hf Hne Hcut. rewrite (Hcells k f Hf).
    unfold schema_row_source. rewrite decide_False by done.
    by rewrite Hcut.
  - exact np_truncates.
Qed.

End SchemaRowFacts.

(** * The scenarios of the specification and sample instances *)

Section Scenarios.

Import Sample.

Ltac member :=
  repeat first [ apply list_elem_of_here | apply list_elem_of_further ].

Lemma covers_schema_abc : covers cf_bc "a" schema_abc.
Proof.
  intros f Hin Hne. unfold schema_abc in Hin.
  repeat (apply elem_of_cons in Hin as [->|Hin]); simpl in *;
    try done; try (eexists; vm_compute; reflexivity).
  by apply elem_of_nil in Hin.
Qed.

(** Scenario 1: the key of the alert [ZTF18abc] at [2458849.5]. *)
Example scenario_rowkey :
  attach_rowkey cast_datum resolver alerts "_"
  = Ok ({| schema := schema alerts ++ [mkField "objectId_jd" (TStr "string") false];
           rows := [ [ Some (VStr "ZTF18abc"); Some (VDatum "2458849.5");
                       Some (VStr "ZTF18abc_2458849.5") ] ] |},
        "objectId_jd").
Proof. reflexivity. Qed.

(** Scenario 2: the missing family of [b] is a [KeyError]. *)
Example scenario_missing_family :
  construct_hbase_catalog_from_flatten_schema py_str schema_ab "t" "a" cf_a
  = Raise (KeyError "b").
Proof. reflexivity. Qed.

(** Scenario 3: [z] is missing, [a] and [b] are projected. *)
Example scenario_missing_column :
  select_relevant_columns analyze df_ab ["a"; "b"; "z"] true None
  = Ok (df_ab, [info_missing_columns ["z"]]).
Proof. reflexivity. Qed.

(** Scenario 4: the schema row of a DataFrame with a cutout. *)
Example scenario_schema_row :
  construct_schema_row py_str df_cutout "schema_version" "schema_1.0_2.0"
  = Ok {| schema := [ mkField "objectId" (TStr "string") true;
                      mkField "cutoutScience_stampData" (TStr "string") true;
                      mkField "schema_version" (TStr "string") true ];
          rows := [ [ Some (VStr "string"); Some (VStr "fits/image");
                      Some (VStr "schema_1.0_2.0") ] ] |}.
Proof. reflexivity. Qed.

(** C1 at the sample schema with a nested type. *)
Lemma catalog_compilation_deterministic_witness :
  ∃ catalog cols,
    construct_hbase_catalog_from_flatten_schema py_str schema_abc "t" "a" cf_bc
      = Ok catalog ∧
    compile_twice py_str schema_abc "t" "a" cf_bc = Ok (catalog, catalog) ∧
    compile_columns py_str (jsonValue_fields schema_abc) "t" "a" cf_bc
      = Ok (catalog, cols) ∧
    compile_columns py_str cols "t" "a" cf_bc = Ok (catalog, cols).
Proof.
  apply (catalog_compilation_deterministic py_str schema_abc "t" "a" cf_bc).
  exact covers_schema_abc.
Defined.

(** C2 at scenario 2. *)
Lemma missing_family_aborts_compilation_witness :
  ∃ g, g ∈ schema_ab ∧ name g ≠ "a" ∧ cf_a !! name g = None ∧
       construct_hbase_catalog_from_flatten_schema py_str schema_ab "t" "a" cf_a
       = Raise (KeyError (name g)).
Proof.
  apply (missing_family_aborts_compilation py_str schema_ab "t" "a" cf_a
           (mkField "b" (TStr "timestamp") true)).
  - unfold schema_ab. member.
  - simpl. discriminate.
  - vm_compute. reflexivity.
Defined.

(** C3 at the sample schema with a nested type. *)
Lemma emitted_types_are_normalized_witness :
  ∃ entries,
    construct_hbase_catalog_from_flatten_schema py_str schema_abc "t" "a" cf_bc
    = Ok (render_catalog "t" "a" entries) ∧
    Forall2 (fun f e =>
               e_key e = name f ∧
               match dataType f with
               | TDict _ => e_type e = "string"
               | TStr s =>
                   if decide (s = "timestamp") then e_type e = "string"
                   else e_type e = s
               end) schema_abc entries.
Proof.
  apply (emitted_types_are_normalized py_str schema_abc "t" "a" cf_bc).
  exact covers_schema_abc.
Defined.

(** C4 at the sample schema with a nested type. *)
Lemma catalog_entries_in_schema_order_annotation_last_witness :
  ∃ entries,
    Forall2 (entry_of "a" cf_bc) schema_abc entries ∧
    construct_hbase_catalog_from_flatten_schema py_str schema_abc "t" "a" cf_bc
    = Ok (Str.replace Str.squote Str.dquote
            (catalog_header "t" "a" +:+
             Str.cat (map render_entry entries) +:+
             entry_body (mkEntry "annotation" "a" "" "string") +:+
             catalog_footer)).
Proof.
  apply (catalog_entries_in_schema_order_annotation_last
           py_str schema_abc "t" "a" cf_bc).
  exact covers_schema_abc.
Defined.

(** C6: a column [objectId_jd] of the input is overwritten in place, so
    nothing is appended and a source column is lost; and a [NULL] key cell
    is left out of the key, separator included. *)
Lemma attach_rowkey_collision_counterexample :
  attach_rowkey cast_datum resolver alerts_with_key_column "_"
  = Ok ({| schema := [ mkField "objectId" (TStr "string") true;
                       mkField "objectId_jd" (TStr "string") false;
                       mkField "jd" (TStr "double") true ];
           rows := [ [ Some (VStr "ZTF18abc"); Some (VStr "ZTF18abc_2458849.5");
                       Some (VDatum "2458849.5") ] ] |},
        "objectId_jd") ∧
  "objectId_jd" ∈ columns alerts_with_key_column ∧
  attach_rowkey cast_datum resolver alerts_with_null "_"
  = Ok ({| schema := schema alerts_with_null
                     ++ [mkField "objectId_jd" (TStr "string") false];
           rows := [ [ None; Some (VDatum "2458849.5");
                       Some (VStr "2458849.5") ] ] |},
        "objectId_jd").
Proof.
  split; [reflexivity|]. split; [|reflexivity].
  unfold columns, alerts_with_key_column. simpl. member.
Qed.

(** C6, amended, at scenario 1. *)
Lemma attach_rowkey_appends_joined_key_witness :
  attach_rowkey cast_datum resolver alerts "_"
  = Ok ({| schema := schema alerts ++ [mkField "objectId_jd" (TStr "string") false];
           rows := map (fun r => r ++ [rowkey_value cast_datum "_" 0 1 r])
                       (rows alerts) |},
        "objectId_jd") ∧
  ∀ (r : list (cell string)) v1 v2,
    r !! 0 = Some (Some v1) → r !! 1 = Some (Some v2) →
    rowkey_value cast_datum "_" 0 1 r
    = Some (VStr (cast_string cast_datum v1 +:+ "_" +:+
                  cast_string cast_datum v2)).
Proof.
  apply (attach_rowkey_appends_joined_key cast_datum resolver alerts 0 1
           (mkField "objectId" (TStr "string") true)
           (mkField "jd" (TStr "double") true)).
  - reflexivity.
  - reflexivity.
  - reflexivity.
Defined.

(** C9 at scenario 1 with the separator [-]. *)
Lemma rowkey_name_ignores_separator_witness :
  ∃ df',
    attach_rowkey cast_datum resolver alerts "-"
    = Ok (df', Str.join "_" retrieve_row_key_cols) ∧
    Str.join "_" retrieve_row_key_cols = "objectId_jd" ∧
    "objectId_jd" ∈ columns df' ∧
    (∀ n r, rows alerts !! n = Some r → length r = length (schema alerts) →
       ∃ r', rows df' !! n = Some r' ∧
             ∀ k f', schema df' !! k = Some f' → name f' = "objectId_jd" →
                     r' !! k = Some (rowkey_value cast_datum "-" 0 1 r)) ∧
    (∀ (r : list (cell string)) v1 v2,
       r !! 0 = Some (Some v1) → r !! 1 = Some (Some v2) →
       rowkey_value cast_datum "-" 0 1 r
       = Some (VStr (cast_string cast_datum v1 +:+ "-" +:+
                     cast_string cast_datum v2)) ∧
       ("-" ≠ "_" →
        rowkey_value cast_datum "-" 0 1 r
        ≠ Some (VStr (cast_string cast_datum v1 +:+ "_" +:+
                      cast_string cast_datum v2)))).
Proof.
  apply (rowkey_name_ignores_separator cast_datum resolver alerts "-" 0 1
           (mkField "objectId" (TStr "string") true)
           (mkField "jd" (TStr "double") true)).
  - intros s. apply String.eqb_refl.
  - reflexivity.
  - reflexivity.
Defined.

(** C7: a version string of 80 characters is not what the key column of
    the schema row holds; it holds the first 75 characters. *)
Lemma schema_row_long_version_counterexample :
  construct_schema_row py_str df_cutout "schema_version" long_version
  = Ok {| schema := [ mkField "objectId" (TStr "string") true;
                      mkField "cutoutScience_stampData" (TStr "string") true;
                      mkField "schema_version" (TStr "string") true ];
          rows := [ [ Some (VStr "string"); Some (VStr "fits/image");
                      Some (VStr long_version_75) ] ] |} ∧
  long_version_75 ≠ long_version ∧
  String.length long_version = 80 ∧
  String.length long_version_75 = 75.
Proof.
  split; [reflexivity|]. split; [|split; reflexivity].
  intros H. apply (f_equal String.length) in H. vm_compute in H. discriminate.
Qed.

(** C7, amended, at scenario 4. *)
Lemma schema_row_holds_types_cut_to_75_witness :
  ∃ df' index cells,
    construct_schema_row py_str df_cutout "schema_version" "schema_1.0_2.0"
    = Ok df' ∧
    columns df' = columns df_cutout ∧
    rows df' = [cells] ∧
    length cells = length (columns df_cutout) ∧
    first_match "schema_version" (columns df_cutout) index ∧
    (∀ k f, schema df_cutout !! k = Some f →
       cells !! k
       = Some (Some (VStr (np_item (np_store
            (if decide (k = index) then "schema_1.0_2.0"
             else if Str.contains "cutout" (name f) then "fits/image"
             else format_type py_str (dataType f))))))) ∧
    (∀ s, String.length s ≤ 75 → Str.rstrip_nul s = s →
          np_item (np_store s) = s).
Proof.
  apply (schema_row_holds_types_cut_to_75 py_str df_cutout
           "schema_version" "schema_1.0_2.0").
  unfold columns, df_cutout. simpl. member.
Defined.

(** C10: of a version string of 77 characters whose 75th is NUL the
    schema row keeps 74 characters, not the first 75. *)
Lemma schema_row_nul_version_counterexample :
  construct_schema_row py_str df_cutout "schema_version" nul_version
  = Ok {| schema := [ mkField "objectId" (TStr "string") true;
                      mkField "cutoutScience_stampData" (TStr "string") true;
                      mkField "schema_version" (TStr "string") true ];
          rows := [ [ Some (VStr "string"); Some (VStr "fits/image");
                      Some (VStr seventy_four) ] ] |} ∧
  String.length nul_version = 77 ∧
  String.length seventy_four = 74 ∧
  Str.take 75 nul_version = seventy_four +:+ String zero "" ∧
  seventy_four ≠ Str.take 75 nul_version.
Proof.
  split; [reflexivity|]. split; [reflexivity|]. split; [reflexivity|].
  split; [reflexivity|].
  intros H. apply (f_equal String.length) in H. vm_compute in H. discriminate.
Qed.

(** C10, amended, at scenario 4 with the version string of 80
    characters. *)
Lemma schema_row_values_cut_to_75_without_trailing_nul_witness :
  ∃ cells,
    construct_schema_row py_str df_cutout "schema_version" long_version
    = Ok {| schema := map (fun n => mkField n (TStr "string") true)
                          (columns df_cutout);
            rows := [cells] |} ∧
    cells !! 2 = Some (Some (VStr (Str.rstrip_nul (Str.take 75 long_version)))) ∧
    (∀ k f, schema df_cutout !! k = Some f → k ≠ 2 →
       Str.contains "cutout" (name f) = false →
       cells !! k
       = Some (Some (VStr (Str.rstrip_nul
                             (Str.take 75 (format_type py_str (dataType f))))))) ∧
    (∀ s, 75 < String.length s →
       String.length (Str.take 75 s) = 75 ∧
       (String.get 74 s ≠ Some zero →
        Str.rstrip_nul (Str.take 75 s) = Str.take 75 s)).
Proof.
  apply (schema_row_values_cut_to_75_without_trailing_nul py_str df_cutout
           "schema_version" long_version 2 []).
  reflexivity.
Defined.

End Scenarios.

(** * Further properties of the module *)

(** ** The catalog compiler *)

Section CatalogMore.

Variable py_str : json -> string.

Lemma emit_column_ok_covered rowkeyname cf sep catalog c out :
  emit_column py_str rowkeyname cf sep catalog c = Ok out →
  c_name c ≠ rowkeyname → is_Some (cf !! c_name c).
Proof.
  unfold emit_column. intros H Hne.
  rewrite (proj2 (String.eqb_neq _ _) Hne) in H.
  destruct (cf !! c_name c); [eauto | done].
Qed.

Lemma catalog_loop_ok_covers rowkeyname cf sep (schema : StructType) catalog out :
  catalog_loop py_str rowkeyname cf sep (jsonValue_fields schema) catalog = Ok out →
  covers cf rowkeyname schema.
Proof.
  revert catalog out. induction schema as [|f schema IH]; intros catalog out H.
  - intros g Hg. by apply elem_of_nil in Hg.
  - unfold jsonValue_fields in *. cbn [map catalog_loop] in H.
    destruct (emit_column py_str rowkeyname cf sep catalog
                (normalize_column (field_jsonValue f))) as [catalog'|e] eqn:E;
      cbn [mbind result_bind] in H; [|done].
    destruct (catalog_loop py_str rowkeyname cf sep
                (map field_jsonValue schema) catalog') as [out'|e] eqn:E';
      cbn [mbind result_bind] in H; [|done].
    intros g Hg Hne. apply elem_of_cons in Hg as [->|Hg].
    + apply emit_column_ok_covered in E;
        rewrite normalize_column_name in *; done.
    + by eapply IH.
Qed.

(** X1. The compilation returns a catalog exactly when the family map
    covers the schema: every field other than the row key has a family. *)
Theorem compilation_succeeds_iff_covered
    (schema : StructType) (catalogname rowkeyname : string)
    (cf : gmap string string) :
  (∃ catalog,
     construct_hbase_catalog_from_flatten_schema
       py_str schema catalogname rowkeyname cf = Ok catalog)
  ↔ covers cf rowkeyname schema.
Proof.
  split.
  - intros [catalog H].
    unfold construct_hbase_catalog_from_flatten_schema, compile_columns in H.
    cbv zeta in H.
    destruct (catalog_loop py_str rowkeyname cf "," (jsonValue_fields schema)
                (catalog_header catalogname rowkeyname)) as [out|e] eqn:E;
      [|done].
    by eapply catalog_loop_ok_covers.
  - intros Hcov.
    destruct (construct_catalog_entries py_str rowkeyname cf schema
                catalogname Hcov) as (es & _ & H).
    eauto.
Qed.

Lemma catalog_loop_first_missing rowkeyname cf sep
    (before after : StructType) (f : StructField) catalog :
  Forall (fun g => name g ≠ rowkeyname → is_Some (cf !! name g)) before →
  name f ≠ rowkeyname → cf !! name f = None →
  catalog_loop py_str rowkeyname cf sep
    (jsonValue_fields (before ++ f :: after)) catalog
  = Raise (KeyError (name f)).
Proof.
  intros Hbefore Hne Hnone. revert catalog.
  induction Hbefore as [|g before Hg _ IH]; intros catalog;
    unfold jsonValue_fields in *; cbn [app map catalog_loop].
  - rewrite emit_column_missing; rewrite ?normalize_column_name; done.
  - destruct (emit_column_cases py_str rowkeyname cf sep catalog
                (normalize_column (field_jsonValue g)))
      as [[out Hout] | (_ & Hk & Hm)].
    + rewrite Hout. cbn [mbind result_bind]. by rewrite IH.
    + rewrite normalize_column_name in *. simpl in *.
      destruct (Hg Hk) as [fam Hfam]. congruence.
Qed.

(** X2. The [KeyError] names the first field, in schema order, that is
    not the row key and has no family: the fields before it are compiled,
    the fields after it are not looked at. *)
Theorem key_error_names_first_uncovered_field
    (before after : StructType) (f : StructField)
    (catalogname rowkeyname : string) (cf : gmap string string) :
  Forall (fun g => name g ≠ rowkeyname → is_Some (cf !! name g)) before →
  name f ≠ rowkeyname → cf !! name f = None →
  construct_hbase_catalog_from_flatten_schema
    py_str (before ++ f :: after) catalogname rowkeyname cf
  = Raise (KeyError (name f)).
Proof.
  intros Hbefore Hne Hnone.
  unfold construct_hbase_catalog_from_flatten_schema, compile_columns.
  cbv zeta. by rewrite (catalog_loop_first_missing _ _ _ _ _ _ _ Hbefore Hne Hnone).
Qed.

Lemma emit_column_agree rowkeyname cf1 cf2 sep catalog c :
  (c_name c ≠ rowkeyname → cf1 !! c_name c = cf2 !! c_name c) →
  emit_column py_str rowkeyname cf1 sep catalog c
  = emit_column py_str rowkeyname cf2 sep catalog c.
Proof.
  intros H. unfold emit_column.
  destruct (String.eqb_spec (c_name c) rowkeyname) as [|Hne]; [done|].
  by rewrite (H Hne).
Qed.

Lemma catalog_loop_agree rowkeyname cf1 cf2 sep (schema : StructType) catalog :
  (∀ f, f ∈ schema → name f ≠ rowkeyname → cf1 !! name f = cf2 !! name f) →
  catalog_loop py_str rowkeyname cf1 sep (jsonValue_fields schema) catalog
  = catalog_loop py_str rowkeyname cf2 sep (jsonValue_fields schema) catalog.
Proof.
  revert catalog. induction schema as [|f schema IH]; intros catalog H;
    [reflexivity|].
  unfold jsonValue_fields in *. cbn [map catalog_loop].
  rewrite (emit_column_agree rowkeyname cf1 cf2).
  - destruct (emit_column py_str rowkeyname cf2 sep catalog
                (normalize_column (field_jsonValue f))) as [catalog'|e];
      cbn [mbind result_bind]; [|done].
    rewrite IH; [done|]. intros g Hg. apply H. by right.
  - rewrite normalize_column_name. simpl. apply H. by left.
Qed.

(** X3. The catalog reads the family map only at the names of the schema
    fields other than the row key: two maps that agree there give the
    same catalog, or the same error. An entry for the row key, or for a
    name that is no column, changes nothing. *)
Theorem catalog_reads_only_the_families_of_its_columns
    (schema : StructType) (catalogname rowkeyname : string)
    (cf1 cf2 : gmap string string) :
  (∀ f, f ∈ schema → name f ≠ rowkeyname → cf1 !! name f = cf2 !! name f) →
  construct_hbase_catalog_from_flatten_schema
    py_str schema catalogname rowkeyname cf1
  = construct_hbase_catalog_from_flatten_schema
      py_str schema catalogname rowkeyname cf2.
Proof.
  intros H.
  unfold construct_hbase_catalog_from_flatten_schema, compile_columns.
  cbv zeta. by rewrite (catalog_loop_agree rowkeyname cf1 cf2 "," schema _ H).
Qed.

Lemma has_char_replace (old new : ascii) (s : string) :
  old ≠ new → has_char old (Str.replace old new s) = false.
Proof.
  intros Hne. induction s as [|c s IH]; [reflexivity|].
  cbn [Str.replace has_char]. rewrite IH, orb_false_r.
  destruct (Ascii.eqb_spec c old) as [->|Hc].
  - apply Ascii.eqb_neq. congruence.
  - by apply Ascii.eqb_neq.
Qed.

(** X4. A catalog that is returned holds no single quote: the final
    [replace] turns every one into a double quote, those of the templates
    and those that a table name, a column name, a family or a type name
    brought in. *)
Theorem catalog_has_no_single_quote
    (schema : StructType) (catalogname rowkeyname : string)
    (cf : gmap string string) (catalog : string) :
  construct_hbase_catalog_from_flatten_schema
    py_str schema catalogname rowkeyname cf = Ok catalog →
  has_char Str.squote catalog = false.
Proof.
  unfold construct_hbase_catalog_from_flatten_schema, compile_columns.
  cbv zeta.
  destruct (catalog_loop py_str rowkeyname cf "," (jsonValue_fields schema)
              (catalog_header catalogname rowkeyname)) as [[text cols]|e];
    cbn [mbind result_bind]; [|done].
  intros [= <-]. apply has_char_replace. by vm_compute.
Qed.

Lemma emit_column_same_entry rowkeyname cf sep catalog f g :
  same_entry f g →
  emit_column py_str rowkeyname cf sep catalog
    (normalize_column (field_jsonValue f))
  = emit_column py_str rowkeyname cf sep catalog
      (normalize_column (field_jsonValue g)).
Proof.
  intros [Hn Ht]. unfold emit_column.
  rewrite !normalize_column_name, !normalize_column_type. simpl.
  by rewrite Hn, Ht.
Qed.

Lemma catalog_loop_same_entries rowkeyname cf sep (s1 s2 : StructType) catalog :
  Forall2 same_entry s1 s2 →
  match catalog_loop py_str rowkeyname cf sep (jsonValue_fields s1) catalog,
        catalog_loop py_str rowkeyname cf sep (jsonValue_fields s2) catalog with
  | Ok (t1, _), Ok (t2, _) => t1 = t2
  | Raise e1, Raise e2 => e1 = e2
  | _, _ => False
  end.
Proof.
  intros H. revert catalog.
  induction H as [|f g s1 s2 Hfg _ IH]; intros catalog; [reflexivity|].
  unfold jsonValue_fields in *. cbn [map catalog_loop].
  rewrite (emit_column_same_entry rowkeyname cf sep catalog f g Hfg).
  destruct (emit_column py_str rowkeyname cf sep catalog
              (normalize_column (field_jsonValue g))) as [catalog'|e];
    cbn [mbind result_bind]; [|reflexivity].
  specialize (IH catalog').
  destruct (catalog_loop py_str rowkeyname cf sep (map field_jsonValue s1) catalog')
    as [[t1 c1]|e1],
    (catalog_loop py_str rowkeyname cf sep (map field_jsonValue s2) catalog')
    as [[t2 c2]|e2]; cbn [mbind result_bind]; done.
Qed.

(** X5. The catalog depends on a field only through its name and its
    normalized type: two schemas whose fields agree on both, one by one,
    compile to the same catalog (or the same error). The nullability of a
    field is not recorded, and a [timestamp] or nested column cannot be
    told from a [string] column. *)
Theorem catalog_depends_on_names_and_normalized_types
    (s1 s2 : StructType) (catalogname rowkeyname : string)
    (cf : gmap string string) :
  Forall2 same_entry s1 s2 →
  construct_hbase_catalog_from_flatten_schema
    py_str s1 catalogname rowkeyname cf
  = construct_hbase_catalog_from_flatten_schema
      py_str s2 catalogname rowkeyname cf.
Proof.
  intros H.
  pose proof (catalog_loop_same_entries rowkeyname cf "," s1 s2
                (catalog_header catalogname rowkeyname) H) as Hloop.
  unfold construct_hbase_catalog_from_flatten_schema, compile_columns.
  cbv zeta.
  destruct (catalog_loop py_str rowkeyname cf "," (jsonValue_fields s1)
              (catalog_header catalogname rowkeyname)) as [[t1 c1]|e1],
           (catalog_loop py_str rowkeyname cf "," (jsonValue_fields s2)
              (catalog_header catalogname rowkeyname)) as [[t2 c2]|e2];
    cbn [mbind result_bind]; try done; by subst.
Qed.

End CatalogMore.

(** ** The column classifier and the family assignment *)

Section SelectMore.

Context {datum Col : Type}.
Variable analyze : DataFrame datum -> Col -> option (list (outcol datum)).
Variable py_str : json -> string.

Lemma analyze_all_app df (a b : list Col) :
  analyze_all analyze df (a ++ b)
  = (oa ← analyze_all analyze df a;
     ob ← analyze_all analyze df b;
     Ok (oa ++ ob)).
Proof.
  induction a as [|c a IH]; cbn [app analyze_all].
  - cbn [mbind result_bind]. by destruct (analyze_all analyze df b).
  - destruct (analyze df c) as [out|]; [|reflexivity].
    rewrite IH.
    destruct (analyze_all analyze df a) as [oa|]; cbn [mbind result_bind];
      [|reflexivity].
    destruct (analyze_all analyze df b) as [ob|]; cbn [mbind result_bind];
      [|reflexivity].
    by rewrite app_assoc.
Qed.

Lemma analyze_all_unresolved df (cols : list Col) c :
  c ∈ cols → resolves analyze df c = false →
  analyze_all analyze df cols = Raise AnalysisException.
Proof.
  intros Hin Hc. rewrite resolves_analyze in Hc.
  induction cols as [|x cols IH]; [by apply elem_of_nil in Hin|].
  cbn [analyze_all]. apply elem_of_cons in Hin as [<-|Hin].
  - by destruct (analyze df c).
  - destruct (analyze df x); [|reflexivity]. by rewrite (IH Hin).
Qed.

Lemma select_unresolved df (cols : list Col) c :
  c ∈ cols → resolves analyze df c = false →
  select analyze df cols = Raise AnalysisException.
Proof.
  intros Hin Hc. unfold select.
  by rewrite (analyze_all_unresolved df cols c Hin Hc).
Qed.

(** The columns of a projection on a concatenation are those of the
    projections on its parts. *)
Lemma select_app df (a b : list Col) d :
  select analyze df (a ++ b) = Ok d →
  ∃ da db,
    select analyze df a = Ok da ∧ select analyze df b = Ok db ∧
    schema d = schema da ++ schema db.
Proof.
  unfold select. rewrite analyze_all_app.
  destruct (analyze_all analyze df a) as [oa|]; cbn [mbind result_bind]; [|done].
  destruct (analyze_all analyze df b) as [ob|]; cbn [mbind result_bind]; [|done].
  intros [= <-]. eexists _, _. repeat split. cbn [schema]. apply map_app.
Qed.

(** X6. The tolerance for missing columns does not extend to
    [to_create]: an entry of [to_create] that does not resolve makes
    [select_relevant_columns] raise [AnalysisException], whatever the
    desired columns are, and nothing is logged. *)
Theorem select_relevant_columns_raises_on_unresolved_to_create
    (df : DataFrame datum) (cols extra : list Col) (logger : bool) (c : Col) :
  c ∈ extra → resolves analyze df c = false →
  select_relevant_columns analyze df cols logger (Some extra)
  = Raise AnalysisException.
Proof.
  intros Hin Hc. unfold select_relevant_columns.
  rewrite classify_columns_filter. cbn [mbind result_bind app].
  rewrite (select_unresolved df _ c); [reflexivity | | exact Hc].
  apply elem_of_app. by right.
Qed.

(** X7. A column that resolves in more than one bucket gets the family of
    the bucket applied last: [b] for a column of the binary bucket, else
    [d] for one of the derived bucket, else [i] for one of the identity
    bucket; a name in none of the three projections has no family. *)
Theorem family_of_the_last_bucket_wins
    (df : DataFrame datum) (cols_i cols_d cols_b : list Col)
    (cf : gmap string string) :
  assign_column_family_names analyze df cols_i cols_d cols_b = Ok cf →
  ∃ df_i df_d df_b,
    select analyze df cols_i = Ok df_i ∧
    select analyze df cols_d = Ok df_d ∧
    select analyze df cols_b = Ok df_b ∧
    (∀ k, k ∈ columns df_b → cf !! k = Some "b") ∧
    (∀ k, k ∉ columns df_b → k ∈ columns df_d → cf !! k = Some "d") ∧
    (∀ k, k ∉ columns df_b → k ∉ columns df_d → k ∈ columns df_i →
          cf !! k = Some "i") ∧
    (∀ k, k ∉ columns df_b → k ∉ columns df_d → k ∉ columns df_i →
          cf !! k = None).
Proof.
  intros H.
  destruct (assign_column_family_names_lookup analyze df cols_i cols_d cols_b
              cf "" H) as (df_i & df_d & df_b & Hi & Hd & Hb & _).
  exists df_i, df_d, df_b. split; [exact Hi|]. split; [exact Hd|].
  split; [exact Hb|].
  assert (Hk : ∀ k, cf !! k =
            if bool_decide (k ∈ columns df_b) then Some "b"
            else if bool_decide (k ∈ columns df_d) then Some "d"
            else if bool_decide (k ∈ columns df_i) then Some "i"
            else None).
  { intros k.
    destruct (assign_column_family_names_lookup analyze df cols_i cols_d cols_b
                cf k H) as (di & dd & db & Hi' & Hd' & Hb' & Hk).
    rewrite Hi in Hi'. rewrite Hd in Hd'. rewrite Hb in Hb'.
    injection Hi' as <-. injection Hd' as <-. injection Hb' as <-. exact Hk. }
  repeat split; intros k; intros; rewrite Hk;
    repeat (first [ rewrite bool_decide_eq_true_2 by done
                  | rewrite bool_decide_eq_false_2 by done ]); reflexivity.
Qed.

(** X8. The family assignment tolerates no missing column: a column of
    any of the three buckets that does not resolve makes it raise
    [AnalysisException]. *)
Theorem assign_column_family_names_raises_on_unresolved
    (df : DataFrame datum) (cols_i cols_d cols_b : list Col) (c : Col) :
  c ∈ cols_i ++ cols_d ++ cols_b → resolves analyze df c = false →
  assign_column_family_names analyze df cols_i cols_d cols_b
  = Raise AnalysisException.
Proof.
  intros Hin Hc. unfold assign_column_family_names.
  destruct (select analyze df cols_i) as [di|e] eqn:Ei; cbn [mbind result_bind];
    [|by rewrite (select_raises _ _ _ _ Ei)].
  destruct (select analyze df cols_d) as [dd|e] eqn:Ed; cbn [mbind result_bind];
    [|by rewrite (select_raises _ _ _ _ Ed)].
  destruct (select analyze df cols_b) as [db|e] eqn:Eb; cbn [mbind result_bind];
    [|by rewrite (select_raises _ _ _ _ Eb)].
  apply elem_of_app in Hin as [Hin|Hin];
    [|apply elem_of_app in Hin as [Hin|Hin]].
  - by rewrite (select_unresolved df cols_i c Hin Hc) in Ei.
  - by rewrite (select_unresolved df cols_d c Hin Hc) in Ed.
  - by rewrite (select_unresolved df cols_b c Hin Hc) in Eb.
Qed.

(** X9. The families assigned from three buckets cover the DataFrame
    flattened with the same three buckets: whatever the row key is, the
    catalog of that DataFrame compiles, no [KeyError] is raised. *)
Theorem assigned_families_cover_the_flattened_dataframe
    (df df_flat : DataFrame datum) (cols_i cols_d cols_b : list Col)
    (cf : gmap string string) (catalogname rowkeyname : string) :
  assign_column_family_names analyze df cols_i cols_d cols_b = Ok cf →
  select analyze df (cols_i ++ cols_d ++ cols_b) = Ok df_flat →
  covers cf rowkeyname (schema df_flat) ∧
  ∃ catalog,
    construct_hbase_catalog_from_flatten_schema
      py_str (schema df_flat) catalogname rowkeyname cf = Ok catalog.
Proof.
  intros Hcf Hflat.
  assert (Hcov : covers cf rowkeyname (schema df_flat)).
  { intros f Hf _.
    destruct (assign_column_family_names_lookup analyze df cols_i cols_d cols_b
                cf (name f) Hcf) as (di & dd & db & Hi & Hd & Hb & Hk).
    apply select_app in Hflat as (di' & dbd & Hi' & Hdb & Hs).
    apply select_app in Hdb as (dd' & db' & Hd' & Hb' & Hs').
    rewrite Hi in Hi'. rewrite Hd in Hd'. rewrite Hb in Hb'.
    injection Hi' as <-. injection Hd' as <-. injection Hb' as <-.
    rewrite Hs, Hs' in Hf. rewrite Hk.
    assert (Hin : ∀ d : DataFrame datum, f ∈ schema d → name f ∈ columns d).
    { intros d Hd0. unfold columns. rewrite map_fmap.
      apply list_elem_of_fmap. eauto. }
    apply elem_of_app in Hf as [Hf|Hf];
      [|apply elem_of_app in Hf as [Hf|Hf]];
      apply Hin in Hf; repeat case_bool_decide; done. }
  split; [exact Hcov|].
  destruct (construct_catalog_entries py_str rowkeyname cf (schema df_flat)
              catalogname Hcov) as (es & _ & H).
  eauto.
Qed.

End SelectMore.

(** ** The row-key builder *)

Section RowKeyMore.

Context {datum : Type}.
Variable cast_datum : datum -> string.
Variable resolver : string -> string -> bool.
Variable py_str : json -> string.

Lemma resolve_raises (df : DataFrame datum) n :
  length (matching resolver df n) ≠ 1 →
  resolve resolver df n = Raise AnalysisException.
Proof.
  unfold resolve. by destruct (matching resolver df n) as [|p [|q l]].
Qed.

Lemma resolve_only_raises_analysis (df : DataFrame datum) n e :
  resolve resolver df n = Raise e → e = AnalysisException.
Proof.
  unfold resolve. destruct (matching resolver df n) as [|p [|q l]];
    intros [= <-]; reflexivity.
Qed.

(** X10. When [objectId] or [jd] answers to no column of the DataFrame,
    or to more than one, [attach_rowkey] raises [AnalysisException] and
    returns no DataFrame, whatever the separator. *)
Theorem attach_rowkey_raises_without_key_column
    (df : DataFrame datum) (sep : string) :
  length (matching resolver df "objectId") ≠ 1 ∨
  length (matching resolver df "jd") ≠ 1 →
  attach_rowkey cast_datum resolver df sep = Raise AnalysisException.
Proof.
  intros H. unfold attach_rowkey, withColumn. cbv zeta.
  cbn [retrieve_row_key_cols map bind_column].
  destruct (resolve resolver df "objectId") as [p|e] eqn:Ei.
  - destruct H as [H|H].
    + by rewrite (resolve_raises df _ H) in Ei.
    + rewrite (resolve_raises df _ H). reflexivity.
  - by rewrite (resolve_only_raises_analysis df _ _ Ei).
Qed.

Lemma append_sep_inj (c : ascii) (a a' b b' : string) :
  has_char c a = false → has_char c a' = false →
  a +:+ String c b = a' +:+ String c b' → a = a' ∧ b = b'.
Proof.
  revert a'. induction a as [|x a IH]; intros [|y a'] Ha Ha' H.
  - rewrite !append_nil_l in H. by injection H as ->.
  - rewrite append_nil_l, append_cons in H. injection H as <- _.
    cbn [has_char] in Ha'. by rewrite Ascii.eqb_refl in Ha'.
  - rewrite append_nil_l, append_cons in H. injection H as -> _.
    cbn [has_char] in Ha. by rewrite Ascii.eqb_refl in Ha.
  - rewrite !append_cons in H. injection H as -> H.
    cbn [has_char] in Ha, Ha'.
    apply orb_false_iff in Ha as [_ Ha]. apply orb_false_iff in Ha' as [_ Ha'].
    destruct (IH a' Ha Ha' H) as [-> ->]. done.
Qed.

(** X11. With a one-character separator that occurs in no [objectId],
    the key tells the records apart: two records with present key cells
    and the same key have the same [objectId] string and the same [jd]
    string. *)
Theorem rowkey_determines_its_components
    (c : ascii) (i j : nat) (r r' : list (cell datum)) (v1 v2 w1 w2 : value datum) :
  r !! i = Some (Some v1) → r !! j = Some (Some v2) →
  r' !! i = Some (Some w1) → r' !! j = Some (Some w2) →
  has_char c (cast_string cast_datum v1) = false →
  has_char c (cast_string cast_datum w1) = false →
  rowkey_value cast_datum (String c "") i j r
  = rowkey_value cast_datum (String c "") i j r' →
  cast_string cast_datum v1 = cast_string cast_datum w1 ∧
  cast_string cast_datum v2 = cast_string cast_datum w2.
Proof.
  intros Hi Hj Hi' Hj' Hv Hw.
  rewrite (rowkey_value_present cast_datum _ i j r v1 v2 Hi Hj).
  rewrite (rowkey_value_present cast_datum _ i j r' w1 w2 Hi' Hj').
  intros [= H]. by apply (append_sep_inj c).
Qed.

(** X12. The row key attached to a DataFrame whose columns all have a
    family compiles: the catalog of the result has the entries of the
    source columns, in order, and after them the entry of the key column
    [objectId_jd], in the family [rowkey] and of type [string]. *)
Theorem catalog_of_keyed_dataframe
    (df : DataFrame datum) (i j : nat) (fi fj : StructField)
    (catalogname : string) (cf : gmap string string) :
  resolve resolver df "objectId" = Ok (i, fi) →
  resolve resolver df "jd" = Ok (j, fj) →
  existsb (fun f => resolver (name f) "objectId_jd") (schema df) = false →
  covers cf "objectId_jd" (schema df) →
  ∃ df' entries,
    attach_rowkey cast_datum resolver df "_" = Ok (df', "objectId_jd") ∧
    Forall2 (entry_of "objectId_jd" cf) (schema df) entries ∧
    construct_hbase_catalog_from_flatten_schema
      py_str (schema df') catalogname "objectId_jd" cf
    = Ok (render_catalog catalogname "objectId_jd"
            (entries ++ [mkEntry "objectId_jd" "rowkey" "objectId_jd" "string"])).
Proof.
  intros Hi Hj Hfree Hcov.
  exists (with_rowkey cast_datum resolver df "_" i j).
  assert (Hs : schema (with_rowkey cast_datum resolver df "_" i j)
               = schema df ++ [rowkey_field]).
  { cbn [with_rowkey schema]. unfold with_rowkey_schema.
    change (existsb (rowkey_hit resolver) (schema df)) with
      (existsb (fun f => resolver (name f) "objectId_jd") (schema df)).
    by rewrite Hfree. }
  assert (Hcov' : covers cf "objectId_jd" (schema df ++ [rowkey_field])).
  { intros f Hf Hne. apply elem_of_app in Hf as [Hf|Hf]; [by apply Hcov|].
    apply list_elem_of_singleton in Hf. by subst f. }
  destruct (construct_catalog_entries py_str "objectId_jd" cf
              (schema df ++ [rowkey_field]) catalogname Hcov')
    as (es & Hes & Hc).
  apply Forall2_app_inv_l in Hes as (es1 & es2 & Hes1 & Hes2 & ->).
  apply Forall2_cons_inv_l in Hes2 as (e & es3 & He & Hes3 & ->).
  apply Forall2_nil_inv_l in Hes3 as ->.
  exists es1. split; [by apply (attach_rowkey_result cast_datum resolver df "_" i fi j fj)|].
  split; [exact Hes1|].
  rewrite Hs, Hc. do 3 f_equal.
  destruct e as [k fam q t]. destruct He as (Hk & Hq & Ht & Hfam).
  cbn in Hk, Hq, Ht, Hfam. by subst.
Qed.

End RowKeyMore.

(** ** The schema-row synthesizer *)

Lemma length_rstrip_nul (s : string) :
  String.length (Str.rstrip_nul s) ≤ String.length s.
Proof.
  induction s as [|c s IH]; [done|].
  rewrite rstrip_nul_cons.
  destruct (Str.rstrip_nul s) as [|c' t].
  - destruct (Ascii.eqb c zero); simpl; lia.
  - simpl in *. lia.
Qed.

Lemma length_np_item_store (s : string) :
  String.length (np_item (np_store s)) ≤ 75.
Proof.
  unfold np_item, np_store.
  pose proof (length_rstrip_nul (Str.take 75 s)) as H.
  rewrite length_take in H. lia.
Qed.

Lemma np_where_nil x a i0 :
  np_where x a i0 = [] ↔ Forall (fun c => np_eqb c x = false) a.
Proof.
  revert i0. induction a as [|y a IH]; intros i0.
  - split; [constructor | reflexivity].
  - cbn [np_where]. destruct (np_eqb y x) eqn:E.
    + split; [done|]. intros H. apply Forall_cons in H as [H _]. congruence.
    + cbn [app]. rewrite IH. split.
      * intros H. by constructor.
      * intros H. by apply Forall_cons in H as [_ H].
Qed.

Section SchemaRowMore.

Context {datum : Type}.
Variable py_str : json -> string.

(** X13. [construct_schema_row] raises [IndexError] exactly when no
    column of the DataFrame equals [rowkeyname] (as numpy compares
    strings); this includes the DataFrame without columns. In every other
    case it returns a DataFrame. *)
Theorem construct_schema_row_index_error_iff_no_key_column
    (df : DataFrame datum) (rowkeyname version : string) :
  (construct_schema_row py_str df rowkeyname version = Raise IndexError
   ↔ Forall (fun c => np_eqb c rowkeyname = false) (columns df)) ∧
  (is_ok (construct_schema_row py_str df rowkeyname version) = false
   ↔ Forall (fun c => np_eqb c rowkeyname = false) (columns df)).
Proof.
  rewrite <- (np_where_nil rowkeyname (columns df) 0).
  unfold construct_schema_row. cbv zeta.
  destruct (np_where rowkeyname (columns df) 0) as [|index rest];
    split; split; done.
Qed.

(** X14. No cell of a schema row is [NULL] and none holds more than 75
    characters. *)
Theorem schema_row_cells_hold_at_most_75_characters
    (df df' : DataFrame datum) (rowkeyname version : string) :
  construct_schema_row py_str df rowkeyname version = Ok df' →
  Forall (Forall (fun c : cell datum =>
                    ∃ s, c = Some (VStr s) ∧ String.length s ≤ 75))
         (rows df').
Proof.
  intros H.
  destruct (np_where rowkeyname (columns df) 0) as [|index rest] eqn:Hw.
  { unfold construct_schema_row in H. cbv zeta in H. by rewrite Hw in H. }
  destruct (construct_schema_row_result py_str df rowkeyname version
              index rest Hw) as (cells & Hres & Hlen & _ & Hcells).
  rewrite Hres in H. injection H as <-. cbn [rows].
  constructor; [|constructor].
  apply Forall_forall. intros c Hc.
  apply list_elem_of_lookup in Hc as [k Hk].
  destruct (lookup_lt_is_Some_2 (schema df) k) as [f Hf].
  { rewrite <- Hlen. by eapply lookup_lt_Some. }
  rewrite (Hcells k f Hf) in Hk. injection Hk as <-.
  eexists. split; [reflexivity|]. apply length_np_item_store.
Qed.

(** X15. In the catalog compiled for a schema row every column has the
    type [string]: the declared types of the data are the values of the
    row, not the types of its catalog. *)
Theorem schema_row_catalog_is_all_strings
    (df row : DataFrame datum) (rowkeyname version : string)
    (catalogname : string) (cf : gmap string string) :
  construct_schema_row py_str df rowkeyname version = Ok row →
  covers cf rowkeyname (schema row) →
  ∃ entries,
    construct_hbase_catalog_from_flatten_schema
      py_str (schema row) catalogname rowkeyname cf
    = Ok (render_catalog catalogname rowkeyname entries) ∧
    map e_key entries = columns df ∧
    Forall (fun e => e_type e = "string") entries.
Proof.
  intros H Hcov.
  destruct (construct_catalog_entries py_str rowkeyname cf (schema row)
              catalogname Hcov) as (es & Hes & Hc).
  exists es. split; [exact Hc|].
  assert (Hs : schema row
               = map (fun n => mkField n (TStr "string") true) (columns df)).
  { unfold construct_schema_row in H. cbv zeta in H.
    destruct (np_where rowkeyname (columns df) 0); [done|].
    by injection H as <-. }
  rewrite Hs in Hes. clear Hc Hcov Hs H.
  revert es Hes. induction (columns df) as [|n l IH]; intros es Hes.
  - apply Forall2_nil_inv_l in Hes as ->. split; [done | constructor].
  - cbn [map] in Hes.
    apply Forall2_cons_inv_l in Hes as (e & es' & He & Hes' & ->).
    destruct (IH es' Hes') as [Hk Ht].
    destruct He as (Hek & _ & Het & _). cbn in Hek, Het.
    split; [cbn [map]; by rewrite Hek, Hk | by constructor].
Qed.

End SchemaRowMore.

(** ** The store *)

Lemma escape_printable (c : ascii) :
  Json.all_printable (Json.escape c) = true.
Proof. destruct c as [[] [] [] [] [] [] [] []]; vm_compute; reflexivity. Qed.

Lemma escape_nonempty (c : ascii) : 1 ≤ String.length (Json.escape c).
Proof.
  destruct c as [[] [] [] [] [] [] [] []]; vm_compute; lia.
Qed.

Lemma all_printable_append (a b : string) :
  Json.all_printable (a +:+ b)
  = Json.all_printable a && Json.all_printable b.
Proof.
  induction a as [|x a IH]; [reflexivity|].
  rewrite append_cons. cbn [Json.all_printable]. by rewrite IH, andb_assoc.
Qed.

Lemma escape_all_printable (s : string) :
  Json.all_printable (Json.escape_all s) = true.
Proof.
  induction s as [|c s IH]; [reflexivity|].
  cbn [Json.escape_all]. by rewrite all_printable_append, escape_printable, IH.
Qed.

Lemma length_escape_all (s : string) :
  String.length s ≤ String.length (Json.escape_all s).
Proof.
  induction s as [|c s IH]; [done|].
  cbn [Json.escape_all]. rewrite length_append.
  pose proof (escape_nonempty c). simpl. lia.
Qed.

Lemma get_append_last (a : string) (c : ascii) :
  String.get (String.length a) (a +:+ String c "") = Some c.
Proof.
  induction a as [|x a IH]; [reflexivity|].
  rewrite append_cons. exact IH.
Qed.

(** X16. [write_catalog_on_disk] asks for one file, and what it writes is
    the JSON text of a string, not the catalog itself: it opens and ends
    with a double quote, holds only characters from the space to the
    tilde (no line break, though the catalog has several), and is at
    least two characters longer than the catalog. *)
Theorem write_catalog_on_disk_writes_a_json_string
    (datum : Type) (catalog catalogname : string) :
  ∃ content,
    write_catalog_on_disk (datum := datum) catalog catalogname
    = ([file_write catalogname content], Ok tt) ∧
    Json.all_printable content = true ∧
    String.get 0 content = Some Str.dquote ∧
    String.get (String.length content - 1) content = Some Str.dquote ∧
    String.length catalog + 2 ≤ String.length content.
Proof.
  exists (Json.dumps catalog). split; [reflexivity|].
  unfold Json.dumps. split; [|split; [reflexivity|split]].
  - cbn [Json.all_printable].
    by rewrite all_printable_append, escape_all_printable.
  - cbn [String.length]. rewrite length_append. cbn [String.length].
    replace (S (String.length (Json.escape_all catalog) + 1) - 1)
      with (S (String.length (Json.escape_all catalog))) by lia.
    cbn [String.get]. apply get_append_last.
  - cbn [String.length]. rewrite length_append. cbn [String.length].
    pose proof (length_escape_all catalog). lia.
Qed.

Section StoreMore.

Context {datum : Type}.
Variable cast_datum : datum -> string.
Variable resolver : string -> string -> bool.
Variable py_str : json -> string.
Variables fbvsn fsvsn : string.

Lemma is_data_row_spec (i : nat) (r : list (cell datum)) :
  is_data_row cast_datum i r = true
  ↔ ∃ v, default None (r !! i) = Some v ∧
         String.prefix "schema_" (cast_string cast_datum v) = false.
Proof.
  unfold is_data_row, sql_not, startswith.
  destruct (default None (r !! i)) as [v|]; cbn.
  - rewrite negb_true_iff. split; [eauto|]. by intros (w & [= <-] & H).
  - split; [done | by intros (w & H & _)].
Qed.

(** X17. [load_hbase_data] returns the loaded table with its schema and,
    in their order, the records whose row key is not [NULL] and does not
    start with [schema_]; every other record is left out. *)
Theorem load_hbase_data_keeps_the_data_rows
    (hbase_load : string → result (DataFrame datum)) (catalog rowkey : string)
    (df : DataFrame datum) (i : nat) (f : StructField) :
  hbase_load catalog = Ok df →
  resolve resolver df rowkey = Ok (i, f) →
  ∃ df',
    load_hbase_data cast_datum resolver hbase_load catalog rowkey = Ok df' ∧
    schema df' = schema df ∧
    rows df' = List.filter (is_data_row cast_datum i) (rows df) ∧
    ∀ r, r ∈ rows df'
         ↔ r ∈ rows df ∧
           ∃ v, default None (r !! i) = Some v ∧
                String.prefix "schema_" (cast_string cast_datum v) = false.
Proof.
  intros Hload Hres. eexists. split.
  { unfold load_hbase_data. rewrite Hload. cbn [mbind result_bind].
    rewrite Hres. cbn [mbind result_bind]. reflexivity. }
  split; [reflexivity|]. split; [reflexivity|].
  intros r. cbn [filter_rows rows fst].
  rewrite <- is_data_row_spec, !list_elem_of_In, List.filter_In. done.
Qed.

(** X18. [load_hbase_data] raises [AnalysisException] when the row key
    answers to no column of the loaded table, or to more than one. *)
Theorem load_hbase_data_raises_without_key_column
    (hbase_load : string → result (DataFrame datum)) (catalog rowkey : string)
    (df : DataFrame datum) :
  hbase_load catalog = Ok df →
  length (matching resolver df rowkey) ≠ 1 →
  load_hbase_data cast_datum resolver hbase_load catalog rowkey
  = Raise AnalysisException.
Proof.
  intros Hload Hm. unfold load_hbase_data. rewrite Hload.
  cbn [mbind result_bind]. by rewrite (resolve_raises resolver df rowkey Hm).
Qed.

Lemma prefix_schema_np (x : string) :
  String.prefix "schema_" (np_item (np_store ("schema_" +:+ x))) = true.
Proof.
  unfold np_item, np_store.
  rewrite prefix_rstrip_nul by reflexivity.
  change ("schema_" +:+ x) with
    (String "s" (String "c" (String "h" (String "e" (String "m"
       (String "a" (String "_" x))))))).
  rewrite !take_cons. cbn. by destruct (Str.take 68 x).
Qed.

(** X19. The schema row that [push_to_hbase] builds is no data row for
    [load_hbase_data]: whatever the two versions are, its key cell starts
    with [schema_], also after the cut to 75 characters, so the filter of
    the load drops it. *)
Theorem schema_row_is_dropped_by_the_load
    (df row : DataFrame datum) (rowkeyname : string) :
  construct_schema_row py_str df rowkeyname (schema_version fbvsn fsvsn)
  = Ok row →
  ∃ index cells key,
    rows row = [cells] ∧
    first_match rowkeyname (columns df) index ∧
    cells !! index = Some (Some (VStr key)) ∧
    String.prefix "schema_" key = true ∧
    is_data_row cast_datum index cells = false ∧
    rows (filter_rows row
            (fun r => sql_not (startswith cast_datum "schema_"
                                 (default None (r !! index))))) = [].
Proof.
  intros H.
  destruct (np_where rowkeyname (columns df) 0) as [|index rest] eqn:Hw.
  { unfold construct_schema_row in H. cbv zeta in H. by rewrite Hw in H. }
  destruct (construct_schema_row_result py_str df rowkeyname
              (schema_version fbvsn fsvsn) index rest Hw)
    as (cells & Hres & Hlen & Hidx & Hcells).
  rewrite Hres in H. injection H as <-.
  destruct (lookup_lt_is_Some_2 (schema df) index Hidx) as [f Hf].
  pose proof (Hcells index f Hf) as Hkey.
  unfold schema_row_source in Hkey. rewrite decide_True in Hkey by done.
  assert (Hdrop : is_data_row cast_datum index cells = false).
  { unfold is_data_row, sql_not, startswith. rewrite Hkey. cbn.
    unfold schema_version. by rewrite prefix_schema_np. }
  eexists index, cells, _. split; [reflexivity|].
  split.
  { destruct (np_where_first _ _ _ _ _ Hw) as (k0 & Hk0 & Hfirst).
    simpl in Hk0. by subst k0. }
  split; [exact Hkey|].
  split; [unfold schema_version; apply prefix_schema_np|].
  split; [exact Hdrop|].
  cbn [filter_rows rows List.filter].
  change (default false (sql_not (startswith cast_datum "schema_"
                                    (default None (cells !! index)))))
    with (is_data_row cast_datum index cells).
  by rewrite Hdrop.
Qed.

Lemma traced_bind_pure_ok {A B} (f : A → @traced datum B) (a : A) :
  traced_bind f (pure_step (Ok a)) = f a.
Proof. unfold traced_bind, pure_step. by destruct (f a). Qed.

Lemma traced_bind_pure_raise {A B} (f : A → @traced datum B) (e : exn) :
  traced_bind f (pure_step (Raise e)) = ([], Raise e).
Proof. reflexivity. Qed.

Lemma traced_bind_emit {B} (f : unit → @traced datum B) (e : @event datum) :
  traced_bind f (emit e) = (e :: (f tt).1, (f tt).2).
Proof. unfold traced_bind, emit. by destruct (f tt). Qed.

Lemma traced_bind_write {B} (f : unit → @traced datum B) (catalog path : string) :
  traced_bind f (write_catalog_on_disk catalog path)
  = (file_write path (Json.dumps catalog) :: (f tt).1, (f tt).2).
Proof. apply traced_bind_emit. Qed.

(** X20. When a column that is not the row key has no family,
    [push_to_hbase] raises the [KeyError] of the catalog compiler before
    it asks for anything: no table is written and no file. *)
Theorem push_to_hbase_writes_nothing_without_a_family
    (df : DataFrame datum) (table_name rowkeyname : string)
    (cf : gmap string string) (nregion : Z) (catfolder : string)
    (f : StructField) :
  f ∈ schema df → name f ≠ rowkeyname → cf !! name f = None →
  ∃ g, g ∈ schema df ∧ name g ≠ rowkeyname ∧ cf !! name g = None ∧
       push_to_hbase resolver py_str fbvsn fsvsn df table_name rowkeyname
         cf nregion catfolder
       = ([], Raise (KeyError (name g))).
Proof.
  intros Hin Hne Hnone.
  destruct (catalog_loop_missing py_str rowkeyname cf "," (schema df)
              (catalog_header table_name rowkeyname) f Hin Hne Hnone)
    as (g & Hg & Hgne & Hgm & Hloop).
  exists g. repeat split; try done.
  assert (Hc : construct_hbase_catalog_from_flatten_schema
                 py_str (schema df) table_name rowkeyname cf
               = Raise (KeyError (name g))).
  { unfold construct_hbase_catalog_from_flatten_schema, compile_columns.
    cbv zeta. by rewrite Hloop. }
  unfold push_to_hbase. rewrite Hc. reflexivity.
Qed.

Lemma withColumnRenamed_no_match (df : DataFrame datum) existing new :
  Forall (fun f => resolver (name f) existing = false) (schema df) →
  withColumnRenamed resolver df existing new = df.
Proof.
  intros H. destruct df as [sch rws]. unfold withColumnRenamed. cbn in *.
  f_equal. induction H as [|f l Hf _ IH]; [reflexivity|].
  cbn [map]. by rewrite Hf, IH.
Qed.

(** X21. When the family map covers the columns but [rowkeyname] answers
    to no column and no column is called [schema_version],
    [push_to_hbase] writes the data and the first catalog file and then
    raises [IndexError]: the schema row and its catalog file are not
    written. *)
Theorem push_to_hbase_stops_after_the_data_without_key_column
    (df : DataFrame datum) (table_name rowkeyname : string)
    (cf : gmap string string) (nregion : Z) (catfolder : string) :
  covers cf rowkeyname (schema df) →
  Forall (fun f => resolver (name f) rowkeyname = false) (schema df) →
  Forall (fun f => np_eqb (name f) "schema_version" = false) (schema df) →
  ∃ catalog,
    construct_hbase_catalog_from_flatten_schema
      py_str (schema df) table_name rowkeyname cf = Ok catalog ∧
    push_to_hbase resolver py_str fbvsn fsvsn df table_name rowkeyname
      cf nregion catfolder
    = ([ hbase_save catalog nregion df;
         file_write (path_join catfolder (table_name +:+ ".json"))
                    (Json.dumps catalog) ],
       Raise IndexError).
Proof.
  intros Hcov Hnokey Hnosv.
  destruct (construct_catalog_entries py_str rowkeyname cf (schema df)
              table_name Hcov) as (es & _ & Hc).
  eexists. split; [exact Hc|].
  unfold push_to_hbase. cbv zeta. rewrite Hc.
  rewrite traced_bind_pure_ok, traced_bind_emit, traced_bind_write.
  rewrite (withColumnRenamed_no_match df _ _ Hnokey).
  assert (Hrow : construct_schema_row py_str df schema_row_key_name
                   (schema_version fbvsn fsvsn) = Raise IndexError).
  { unfold construct_schema_row. cbv zeta.
    assert (Hw : np_where schema_row_key_name (columns df) 0 = []).
    { apply np_where_nil. unfold columns. rewrite Forall_map. exact Hnosv. }
    by rewrite Hw. }
  rewrite Hrow. reflexivity.
Qed.

Lemma renamed_key_column (df : DataFrame datum) (rowkeyname : string) :
  (∀ n, resolver n n = true) →
  rowkeyname ∈ columns df →
  schema_row_key_name
  ∈ columns (withColumnRenamed resolver df rowkeyname schema_row_key_name).
Proof.
  intros Hrefl Hin. unfold columns in *. rewrite map_fmap in Hin.
  apply list_elem_of_fmap in Hin as (f & -> & Hf).
  cbn [withColumnRenamed schema]. rewrite !map_fmap.
  apply list_elem_of_fmap. eexists. split; [|apply list_elem_of_fmap; eauto].
  by rewrite Hrefl.
Qed.

Lemma renamed_columns_covered (df : DataFrame datum) (rowkeyname : string)
    (cf : gmap string string) (n : string) :
  (∀ n, resolver n n = true) →
  covers cf rowkeyname (schema df) →
  n ∈ columns (withColumnRenamed resolver df rowkeyname schema_row_key_name) →
  n ≠ schema_row_key_name → is_Some (cf !! n).
Proof.
  intros Hrefl Hcov Hin Hne. unfold columns in Hin.
  cbn [withColumnRenamed schema] in Hin. rewrite !map_fmap in Hin.
  apply list_elem_of_fmap in Hin as (g & -> & Hg).
  apply list_elem_of_fmap in Hg as (f & -> & Hf).
  destruct (resolver (name f) rowkeyname) eqn:E; [done|].
  apply Hcov; [exact Hf|]. intros Heq. by rewrite Heq, Hrefl in E.
Qed.

(** X22. When the family map covers the columns and [rowkeyname] is one
    of them, [push_to_hbase] raises nothing of its own and asks, in this
    order, for: the data under its catalog, the file [table.json] with
    that catalog, the schema row (one record) under the catalog compiled
    for it with the key [schema_version], and the file
    [table_schema_row.json] with that second catalog. *)
Theorem push_to_hbase_writes_data_then_schema_row
    (df : DataFrame datum) (table_name rowkeyname : string)
    (cf : gmap string string) (nregion : Z) (catfolder : string) :
  (∀ n, resolver n n = true) →
  covers cf rowkeyname (schema df) →
  rowkeyname ∈ columns df →
  ∃ catalog row cells catalog_row,
    construct_hbase_catalog_from_flatten_schema
      py_str (schema df) table_name rowkeyname cf = Ok catalog ∧
    construct_schema_row py_str
      (withColumnRenamed resolver df rowkeyname "schema_version")
      "schema_version" (schema_version fbvsn fsvsn) = Ok row ∧
    rows row = [cells] ∧
    construct_hbase_catalog_from_flatten_schema
      py_str (schema row) table_name "schema_version" cf = Ok catalog_row ∧
    push_to_hbase resolver py_str fbvsn fsvsn df table_name rowkeyname
      cf nregion catfolder
    = ([ hbase_save catalog nregion df;
         file_write (path_join catfolder (table_name +:+ ".json"))
                    (Json.dumps catalog);
         hbase_save catalog_row nregion row;
         file_write (path_join catfolder (table_name +:+ "_schema_row.json"))
                    (Json.dumps catalog_row) ],
       Ok tt).
Proof.
  intros Hrefl Hcov Hkey.
  destruct (construct_catalog_entries py_str rowkeyname cf (schema df)
              table_name Hcov) as (es & _ & Hc).
  set (renamed := withColumnRenamed resolver df rowkeyname schema_row_key_name).
  destruct (np_where_found schema_row_key_name (columns renamed) 0
              (renamed_key_column df rowkeyname Hrefl Hkey))
    as (index & rest & Hw).
  destruct (construct_schema_row_result py_str renamed schema_row_key_name
              (schema_version fbvsn fsvsn) index rest Hw)
    as (cells & Hrow & _).
  set (row := {| schema := map (fun n => mkField n (TStr "string") true)
                               (columns renamed);
                 rows := [cells] |}) in *.
  assert (Hcov' : covers cf schema_row_key_name (schema row)).
  { intros f Hf Hne. cbn [row schema] in Hf. rewrite map_fmap in Hf.
    apply list_elem_of_fmap in Hf as (n & -> & Hn). cbn in *.
    by apply (renamed_columns_covered df rowkeyname cf n). }
  destruct (construct_catalog_entries py_str schema_row_key_name cf (schema row)
              table_name Hcov') as (es' & _ & Hc').
  eexists _, row, cells, _.
  split; [exact Hc|]. split; [exact Hrow|]. split; [reflexivity|].
  split; [exact Hc'|].
  unfold push_to_hbase. cbv zeta. rewrite Hc.
  rewrite traced_bind_pure_ok, traced_bind_emit, traced_bind_write.
  fold renamed. rewrite Hrow. rewrite traced_bind_pure_ok.
  rewrite Hc'. rewrite traced_bind_pure_ok, traced_bind_emit.
  reflexivity.
Qed.

End StoreMore.

(** * Instances of the further properties *)

Section MoreInstances.

Import Sample SampleStore.

Ltac member :=
  repeat first [ apply list_elem_of_here | apply list_elem_of_further ].

(** X2 at scenario 2: the field [a] is the row key, [b] has no family. *)
Lemma key_error_names_first_uncovered_field_witness :
  construct_hbase_catalog_from_flatten_schema
    py_str ([mkField "a" (TStr "string") true]
            ++ mkField "b" (TStr "timestamp") true :: []) "t" "a" cf_a
  = Raise (KeyError (name (mkField "b" (TStr "timestamp") true))).
Proof.
  apply (key_error_names_first_uncovered_field py_str
           [mkField "a" (TStr "string") true] []
           (mkField "b" (TStr "timestamp") true) "t" "a" cf_a).
  - repeat constructor. simpl. intros H. by destruct H.
  - simpl. discriminate.
  - vm_compute. reflexivity.
Defined.

(** X3: a family for the row key and one for a name that is no column
    change nothing. *)
Lemma catalog_reads_only_the_families_of_its_columns_witness :
  construct_hbase_catalog_from_flatten_schema py_str schema_abc "t" "a" cf_bc
  = construct_hbase_catalog_from_flatten_schema py_str schema_abc "t" "a"
      (<["a" := "i"]> (<["zzz" := "d"]> cf_bc)).
Proof.
  apply (catalog_reads_only_the_families_of_its_columns py_str schema_abc
           "t" "a" cf_bc (<["a" := "i"]> (<["zzz" := "d"]> cf_bc))).
  intros f Hin Hne. unfold schema_abc in Hin.
  repeat (apply elem_of_cons in Hin as [->|Hin]); simpl in *;
    try done; try (vm_compute; reflexivity).
  by apply elem_of_nil in Hin.
Defined.

(** X4 with a single quote in the table name. *)
Lemma catalog_has_no_single_quote_witness :
  has_char Str.squote
    (render_catalog "alerts' table" "a"
       [ mkEntry "a" "rowkey" "a" "string"; mkEntry "b" "i" "b" "string";
         mkEntry "c" "d" "c" "string" ]) = false.
Proof.
  apply (catalog_has_no_single_quote py_str schema_abc "alerts' table" "a" cf_bc).
  vm_compute. reflexivity.
Defined.

(** X5: a timestamp column and a string column, with other
    nullabilities. *)
Lemma catalog_depends_on_names_and_normalized_types_witness :
  construct_hbase_catalog_from_flatten_schema py_str schema_ab "t" "a" cf_ab
  = construct_hbase_catalog_from_flatten_schema py_str schema_ab_strings
      "t" "a" cf_ab.
Proof.
  apply (catalog_depends_on_names_and_normalized_types py_str
           schema_ab schema_ab_strings "t" "a" cf_ab).
  repeat constructor.
Defined.

(** X6: [z] in [to_create] is no column of the DataFrame. *)
Lemma select_relevant_columns_raises_on_unresolved_to_create_witness :
  select_relevant_columns analyze df_ab ["a"; "z"] true (Some ["z"])
  = Raise AnalysisException.
Proof.
  apply (select_relevant_columns_raises_on_unresolved_to_create
           analyze df_ab ["a"; "z"] ["z"] true "z").
  - member.
  - reflexivity.
Defined.

(** X7: [b] is in the identity bucket and in the derived bucket. *)
Lemma family_of_the_last_bucket_wins_witness :
  ∃ df_i df_d df_b,
    select analyze df_ab ["a"; "b"] = Ok df_i ∧
    select analyze df_ab ["b"] = Ok df_d ∧
    select analyze df_ab [] = Ok df_b ∧
    (∀ k, k ∈ columns df_b → cf_ab !! k = Some "b") ∧
    (∀ k, k ∉ columns df_b → k ∈ columns df_d → cf_ab !! k = Some "d") ∧
    (∀ k, k ∉ columns df_b → k ∉ columns df_d → k ∈ columns df_i →
          cf_ab !! k = Some "i") ∧
    (∀ k, k ∉ columns df_b → k ∉ columns df_d → k ∉ columns df_i →
          cf_ab !! k = None).
Proof.
  apply (family_of_the_last_bucket_wins analyze df_ab ["a"; "b"] ["b"] [] cf_ab).
  vm_compute. reflexivity.
Defined.

(** X8: [z] in the derived bucket is no column of the DataFrame. *)
Lemma assign_column_family_names_raises_on_unresolved_witness :
  assign_column_family_names analyze df_ab ["a"] ["z"] ["b"]
  = Raise AnalysisException.
Proof.
  apply (assign_column_family_names_raises_on_unresolved
           analyze df_ab ["a"] ["z"] ["b"] "z").
  - simpl. member.
  - reflexivity.
Defined.

(** X9: the DataFrame of scenario 3 flattened with the buckets [a] and
    [b]. *)
Lemma assigned_families_cover_the_flattened_dataframe_witness :
  covers cf_ab "objectId_jd" (schema df_ab) ∧
  ∃ catalog,
    construct_hbase_catalog_from_flatten_schema
      py_str (schema df_ab) "t" "objectId_jd" cf_ab = Ok catalog.
Proof.
  apply (assigned_families_cover_the_flattened_dataframe analyze py_str
           df_ab df_ab ["a"] ["b"] [] cf_ab "t" "objectId_jd").
  - vm_compute. reflexivity.
  - reflexivity.
Defined.

(** X10: the DataFrame of scenario 3 has no column [objectId]. *)
Lemma attach_rowkey_raises_without_key_column_witness :
  attach_rowkey cast_datum resolver df_ab "_" = Raise AnalysisException.
Proof.
  apply (attach_rowkey_raises_without_key_column cast_datum resolver df_ab "_").
  left. vm_compute. discriminate.
Defined.

(** X11 at the alert of scenario 1. *)
Lemma rowkey_determines_its_components_witness :
  cast_string cast_datum (VStr "ZTF18abc") = cast_string cast_datum (VStr "ZTF18abc") ∧
  cast_string cast_datum (VDatum "2458849.5")
  = cast_string cast_datum (VDatum "2458849.5").
Proof.
  apply (rowkey_determines_its_components cast_datum "_" 0 1
           [Some (VStr "ZTF18abc"); Some (VDatum "2458849.5")]
           [Some (VStr "ZTF18abc"); Some (VDatum "2458849.5")]
           (VStr "ZTF18abc") (VDatum "2458849.5")
           (VStr "ZTF18abc") (VDatum "2458849.5"));
    reflexivity.
Defined.

(** X12 at scenario 1. *)
Lemma catalog_of_keyed_dataframe_witness :
  ∃ df' entries,
    attach_rowkey cast_datum resolver alerts "_" = Ok (df', "objectId_jd") ∧
    Forall2 (entry_of "objectId_jd" cf_keyed) (schema alerts) entries ∧
    construct_hbase_catalog_from_flatten_schema
      py_str (schema df') "t" "objectId_jd" cf_keyed
    = Ok (render_catalog "t" "objectId_jd"
            (entries ++ [mkEntry "objectId_jd" "rowkey" "objectId_jd" "string"])).
Proof.
  apply (catalog_of_keyed_dataframe cast_datum resolver py_str alerts 0 1
           (mkField "objectId" (TStr "string") true)
           (mkField "jd" (TStr "double") true) "t" cf_keyed).
  - reflexivity.
  - reflexivity.
  - reflexivity.
  - intros f Hin Hne. unfold alerts in Hin. cbn [schema] in Hin.
    repeat (apply elem_of_cons in Hin as [->|Hin]); simpl in *;
      try (eexists; vm_compute; reflexivity).
    by apply elem_of_nil in Hin.
Defined.

(** X14 at scenario 4. *)
Lemma schema_row_cells_hold_at_most_75_characters_witness :
  Forall (Forall (fun c : cell string =>
                    ∃ s, c = Some (VStr s) ∧ String.length s ≤ 75))
         (rows schema_row).
Proof.
  apply (schema_row_cells_hold_at_most_75_characters py_str df_cutout
           schema_row "schema_version" "schema_2.4_3.1").
  reflexivity.
Defined.

(** X15 at scenario 4. *)
Lemma schema_row_catalog_is_all_strings_witness :
  ∃ entries,
    construct_hbase_catalog_from_flatten_schema
      py_str (schema schema_row) "t" "schema_version" cf_cutout
    = Ok (render_catalog "t" "schema_version" entries) ∧
    map e_key entries = columns df_cutout ∧
    Forall (fun e => e_type e = "string") entries.
Proof.
  apply (schema_row_catalog_is_all_strings py_str df_cutout schema_row
           "schema_version" "schema_2.4_3.1" "t" cf_cutout).
  - reflexivity.
  - intros f Hin Hne. unfold schema_row in Hin. cbn [schema] in Hin.
    repeat (apply elem_of_cons in Hin as [->|Hin]); simpl in *;
      try done; try (eexists; vm_compute; reflexivity).
    by apply elem_of_nil in Hin.
Defined.

(** X17 on a table with a data row, a schema row and a record without
    key. *)
Lemma load_hbase_data_keeps_the_data_rows_witness :
  ∃ df',
    load_hbase_data cast_datum resolver hbase_load "catalog" "objectId_jd"
    = Ok df' ∧
    schema df' = schema table ∧
    rows df' = List.filter (is_data_row cast_datum 1) (rows table) ∧
    ∀ r, r ∈ rows df'
         ↔ r ∈ rows table ∧
           ∃ v, default None (r !! 1) = Some v ∧
                String.prefix "schema_" (cast_string cast_datum v) = false.
Proof.
  apply (load_hbase_data_keeps_the_data_rows cast_datum resolver hbase_load
           "catalog" "objectId_jd" table 1
           (mkField "objectId_jd" (TStr "string") true)).
  - reflexivity.
  - reflexivity.
Defined.

(** X18: the table has no column [rowkey]. *)
Lemma load_hbase_data_raises_without_key_column_witness :
  load_hbase_data cast_datum resolver hbase_load "catalog" "rowkey"
  = Raise AnalysisException.
Proof.
  apply (load_hbase_data_raises_without_key_column cast_datum resolver
           hbase_load "catalog" "rowkey" table).
  - reflexivity.
  - vm_compute. discriminate.
Defined.

(** X19 at scenario 4 with the versions 2.4 and 3.1. *)
Lemma schema_row_is_dropped_by_the_load_witness :
  ∃ index cells key,
    rows schema_row = [cells] ∧
    first_match "schema_version" (columns df_cutout) index ∧
    cells !! index = Some (Some (VStr key)) ∧
    String.prefix "schema_" key = true ∧
    is_data_row cast_datum index cells = false ∧
    rows (filter_rows schema_row
            (fun r => sql_not (startswith cast_datum "schema_"
                                 (default None (r !! index))))) = [].
Proof.
  apply (schema_row_is_dropped_by_the_load cast_datum py_str "2.4" "3.1"
           df_cutout schema_row "schema_version").
  reflexivity.
Defined.

(** X20: the keyed DataFrame with a family map without [jd]. *)
Lemma push_to_hbase_writes_nothing_without_a_family_witness :
  ∃ g, g ∈ schema keyed ∧ name g ≠ "objectId_jd" ∧
       ({[ "objectId" := "i" ]} : gmap string string) !! name g = None ∧
       push_to_hbase resolver py_str "2.4" "3.1" keyed "t" "objectId_jd"
         {[ "objectId" := "i" ]} 50 "."
       = ([], Raise (KeyError (name g))).
Proof.
  apply (push_to_hbase_writes_nothing_without_a_family resolver py_str
           "2.4" "3.1" keyed "t" "objectId_jd" {[ "objectId" := "i" ]} 50 "."
           (mkField "jd" (TStr "double") true)).
  - unfold keyed. cbn [schema]. member.
  - simpl. discriminate.
  - vm_compute. reflexivity.
Defined.

(** X21: the DataFrame of scenario 3 pushed under a row key that is no
    column. *)
Lemma push_to_hbase_stops_after_the_data_without_key_column_witness :
  ∃ catalog,
    construct_hbase_catalog_from_flatten_schema
      py_str (schema df_ab) "t" "nokey" cf_ab = Ok catalog ∧
    push_to_hbase resolver py_str "2.4" "3.1" df_ab "t" "nokey" cf_ab 50 "."
    = ([ hbase_save catalog 50 df_ab;
         file_write (path_join "." ("t" +:+ ".json")) (Json.dumps catalog) ],
       Raise IndexError).
Proof.
  apply (push_to_hbase_stops_after_the_data_without_key_column resolver py_str
           "2.4" "3.1" df_ab "t" "nokey" cf_ab 50 ".").
  - intros f Hin Hne. unfold df_ab in Hin. cbn [schema] in Hin.
    repeat (apply elem_of_cons in Hin as [->|Hin]); simpl in *;
      try (eexists; vm_compute; reflexivity).
    by apply elem_of_nil in Hin.
  - repeat constructor.
  - repeat constructor.
Defined.

(** X22: the keyed DataFrame pushed with a covering family map. *)
Lemma push_to_hbase_writes_data_then_schema_row_witness :
  ∃ catalog row cells catalog_row,
    construct_hbase_catalog_from_flatten_schema
      py_str (schema keyed) "t" "objectId_jd" cf_keyed = Ok catalog ∧
    construct_schema_row py_str
      (withColumnRenamed resolver keyed "objectId_jd" "schema_version")
      "schema_version" (schema_version "2.4" "3.1") = Ok row ∧
    rows row = [cells] ∧
    construct_hbase_catalog_from_flatten_schema
      py_str (schema row) "t" "schema_version" cf_keyed = Ok catalog_row ∧
    push_to_hbase resolver py_str "2.4" "3.1" keyed "t" "objectId_jd"
      cf_keyed 50 "."
    = ([ hbase_save catalog 50 keyed;
         file_write (path_join "." ("t" +:+ ".json")) (Json.dumps catalog);
         hbase_save catalog_row 50 row;
         file_write (path_join "." ("t" +:+ "_schema_row.json"))
                    (Json.dumps catalog_row) ],
       Ok tt).
Proof.
  apply (push_to_hbase_writes_data_then_schema_row resolver py_str
           "2.4" "3.1" keyed "t" "objectId_jd" cf_keyed 50 ".").
  - intros n. apply String.eqb_refl.
  - intros f Hin Hne. unfold keyed in Hin. cbn [schema] in Hin.
    repeat (apply elem_of_cons in Hin as [->|Hin]); simpl in *;
      try done; try (eexists; vm_compute; reflexivity).
    by apply elem_of_nil in Hin.
  - unfold columns, keyed. simpl. member.
Defined.

End MoreInstances.
